(** * The Entitytainer: a shallow embedding of [the_entitytainer_2.h]

    The header keeps, for every parent entity, a bucket of child entities.
    Buckets live in a few bucket lists (tiers) of growing bucket size; a
    16-bit lookup word per entity names the tier and the bucket; a reverse
    lookup array names the parent of every child.

    Conventions of the embedding.
    - [int] is 32 bits, [short] (TheEntitytainerEntity) 16 bits signed,
      [unsigned short] (TheEntitytainerEntry) 16 bits unsigned.  Values are
      in [Z]; every conversion to one of these types is written out
      ([sint32], [sint16], [uint16]).  Signed overflow is taken as
      two's-complement wrap-around.
    - A C array is a [list Z]; an access outside the list is [Undefined].
      Every bucket list has its slab as a list of its own.  In the header
      the slabs follow one another in one buffer, so an access past the end
      of a slab lands in the next slab there, and is [Undefined] here: the
      embedding agrees with the header on the runs that stay inside the
      slabs.
    - A failed assertion is [AssertFailed].  Both [ENTITYTAINER_assert] and
      the upper-case [ASSERT] the header uses are taken as checking
      assertions.
    - Every function takes the container and returns the new container:
      explicit state passing inside the [result] monad. *)

From stdpp Require Import base option list numbers.
From Stdlib Require Import ZArith Lia.
From Stdlib Require Import Floats.SpecFloat.

Local Open Scope Z_scope.

(** ** Outcomes *)

Inductive result (A : Type) : Type :=
  | Ok (a : A)
  | AssertFailed
  | Undefined.

Arguments Ok {A} a.
Arguments AssertFailed {A}.
Arguments Undefined {A}.

#[global] Instance result_ret : MRet result := fun A a => Ok a.
#[global] Instance result_bind : MBind result := fun A B f m =>
  match m with
  | Ok a => f a
  | AssertFailed => AssertFailed
  | Undefined => Undefined
  end.

Definition ENTITYTAINER_assert (b : bool) : result unit :=
  if b then Ok tt else AssertFailed.

(** The header writes [ASSERT] in two places; it is the host's assertion. *)
Definition ASSERT (b : bool) : result unit := ENTITYTAINER_assert b.

(** ** Machine integers *)

Definition sint16 (z : Z) : Z := (z + 32768) mod 65536 - 32768.
Definition uint16 (z : Z) : Z := z mod 65536.
Definition sint32 (z : Z) : Z := (z + 2147483648) mod 4294967296 - 2147483648.

Definition INT_MIN : Z := -2147483648.
Definition INT_MAX : Z := 2147483647.

Definition sizeof_TheEntitytainerEntity : Z := 2.
Definition sizeof_TheEntitytainerEntry : Z := 2.
Definition sizeof_int : Z := 4.

(** The two struct sizes depend on the target; they are a parameter of the
    sizing calculator and of construction. *)
Record TargetSizes : Type := {
  sizeof_TheEntitytainer : Z;
  sizeof_TheEntitytainerBucketList : Z
}.

(** Four pointers and two ints; one pointer and four ints. *)
Definition lp64 : TargetSizes :=
  {| sizeof_TheEntitytainer := 40; sizeof_TheEntitytainerBucketList := 24 |}.

Definition ENTITYTAINER_BucketMask : Z := 0x3f.
Definition ENTITYTAINER_BucketListOffset : Z := sizeof_TheEntitytainerEntry * 8 - 2.
Definition ENTITYTAINER_NoFreeBucket : Z := -1.

(** ** Arrays *)

Definition arr_get (a : list Z) (i : Z) : result Z :=
  if bool_decide (0 <= i) then
    match a !! Z.to_nat i with
    | Some v => Ok v
    | None => Undefined
    end
  else Undefined.

Definition arr_set (a : list Z) (i : Z) (v : Z) : result (list Z) :=
  if bool_decide (0 <= i < Z.of_nat (length a))
  then Ok (<[Z.to_nat i := v]> a)
  else Undefined.

(** [n] consecutive elements starting at [off]. *)
Definition arr_read_n (a : list Z) (off n : Z) : result (list Z) :=
  if bool_decide (0 <= off /\ 0 <= n /\ off + n <= Z.of_nat (length a))
  then Ok (take (Z.to_nat n) (drop (Z.to_nat off) a))
  else Undefined.

(** Overwrite the elements starting at [off] by [vs]. *)
Definition arr_write_n (a : list Z) (off : Z) (vs : list Z) : result (list Z) :=
  if bool_decide (0 <= off /\ off + Z.of_nat (length vs) <= Z.of_nat (length a))
  then Ok (take (Z.to_nat off) a ++ vs ++ drop (Z.to_nat off + length vs) a)
  else Undefined.

(** [memcpy (dst + doff, src + soff, n * sizeof (TheEntitytainerEntity))]. *)
Definition ENTITYTAINER_memcpy (dst : list Z) (doff : Z) (src : list Z) (soff n : Z)
  : result (list Z) :=
  vs ← arr_read_n src soff n;
  arr_write_n dst doff vs.

(** [memmove] inside one array: all of the source is read before the
    destination is written. *)
Definition ENTITYTAINER_memmove (a : list Z) (doff soff n : Z) : result (list Z) :=
  vs ← arr_read_n a soff n;
  arr_write_n a doff vs.

(** [*(int* )(a + off) = v]: an int stored over two entity slots, low half
    first. *)
Definition arr_set_int (a : list Z) (off : Z) (v : Z) : result (list Z) :=
  arr_write_n a off [sint16 v; sint16 (Z.shiftr v 16)].

(** ** Data model *)

(** Modelled from the spec: the declaration of [TheEntitytainerBucketList]
    is not in the header; its fields are those the functions use and the
    specification lists for a tier (slab, bucket size, total buckets, used
    buckets, head of the free list). *)
Record TheEntitytainerBucketList : Type := {
  buckets : list Z;
  bucket_size : Z;
  total_buckets : Z;
  first_free_bucket : Z;
  used_buckets : Z
}.

(** The fields the functions access ([entry_lookup], [entry_reverse_lookup],
    [bucket_lists], [num_bucket_lists], [entry_lookup_size]). *)
Record TheEntitytainer : Type := {
  entry_lookup : list Z;
  entry_reverse_lookup : list Z;
  bucket_lists : list TheEntitytainerBucketList;
  num_bucket_lists : Z;
  entry_lookup_size : Z
}.

Definition set_buckets (l : TheEntitytainerBucketList) (b : list Z) :=
  {| buckets := b; bucket_size := bucket_size l; total_buckets := total_buckets l;
     first_free_bucket := first_free_bucket l; used_buckets := used_buckets l |}.

Definition set_first_free_bucket (l : TheEntitytainerBucketList) (f : Z) :=
  {| buckets := buckets l; bucket_size := bucket_size l; total_buckets := total_buckets l;
     first_free_bucket := f; used_buckets := used_buckets l |}.

Definition set_used_buckets (l : TheEntitytainerBucketList) (u : Z) :=
  {| buckets := buckets l; bucket_size := bucket_size l; total_buckets := total_buckets l;
     first_free_bucket := first_free_bucket l; used_buckets := u |}.

Definition set_entry_lookup (s : TheEntitytainer) (l : list Z) :=
  {| entry_lookup := l; entry_reverse_lookup := entry_reverse_lookup s;
     bucket_lists := bucket_lists s; num_bucket_lists := num_bucket_lists s;
     entry_lookup_size := entry_lookup_size s |}.

Definition set_entry_reverse_lookup (s : TheEntitytainer) (r : list Z) :=
  {| entry_lookup := entry_lookup s; entry_reverse_lookup := r;
     bucket_lists := bucket_lists s; num_bucket_lists := num_bucket_lists s;
     entry_lookup_size := entry_lookup_size s |}.

Definition set_bucket_lists (s : TheEntitytainer) (ls : list TheEntitytainerBucketList) :=
  {| entry_lookup := entry_lookup s; entry_reverse_lookup := entry_reverse_lookup s;
     bucket_lists := ls; num_bucket_lists := num_bucket_lists s;
     entry_lookup_size := entry_lookup_size s |}.

(** [entitytainer->bucket_lists + i], dereferenced. *)
Definition bucket_list_at (s : TheEntitytainer) (i : Z) : result TheEntitytainerBucketList :=
  if bool_decide (0 <= i) then
    match bucket_lists s !! Z.to_nat i with
    | Some l => Ok l
    | None => Undefined
    end
  else Undefined.

Definition store_bucket_list (s : TheEntitytainer) (i : Z) (l : TheEntitytainerBucketList)
  : TheEntitytainer :=
  set_bucket_lists s (<[Z.to_nat i := l]> (bucket_lists s)).

(** ** Sizing calculator *)

(** The body of the [for] loop of [entitytainer_needed_size], run for
    [i, i+1, ...] as long as [fuel] lasts. *)
Fixpoint needed_size_loop (fuel : nat) (i : Z) (bucket_sizes bucket_list_sizes : list Z)
    (size_needed : Z) : result Z :=
  match fuel with
  | O => Ok size_needed
  | S fuel' =>
      n ← arr_get bucket_list_sizes i;
      b ← arr_get bucket_sizes i;
      needed_size_loop fuel' (i + 1) bucket_sizes bucket_list_sizes
        (sint32 (size_needed + sint32 (n * b) * sizeof_TheEntitytainerEntity))
  end.

Definition entitytainer_needed_size (ts : TargetSizes) (num_entries : Z)
    (bucket_sizes bucket_list_sizes : list Z) (num_bucket_lists : Z) : result Z :=
  let size_needed := sint32 (sizeof_TheEntitytainer ts) in
  let size_needed := sint32 (size_needed + num_entries * sizeof_TheEntitytainerEntry) in
  let size_needed := sint32 (size_needed + num_entries * sizeof_TheEntitytainerEntity) in
  let size_needed :=
    sint32 (size_needed + num_bucket_lists * sizeof_TheEntitytainerBucketList ts) in
  needed_size_loop (Z.to_nat num_bucket_lists) 0 bucket_sizes bucket_list_sizes size_needed.

(** ** Construction *)

(** Conversion to [size_t], 64 bits wide as for [lp64]. *)
Definition size_t (z : Z) : Z := z mod 18446744073709551616.

(** The loop of [entitytainer_create]: one bucket list per tier, its slab
    carved out of zeroed memory; [bucket_data] counts the entities carved so
    far.  The assertion compares in [size_t], as
    [bucket_sizes[i] * sizeof( TheEntitytainerEntity ) >= sizeof( int )]
    does.  The slab of a list reaches from its [bucket_data] to the next
    one, [bucket_size * total_buckets] entities further, an [int] product;
    a product below zero puts the next slab before this one, which a list
    per slab cannot hold: [Undefined]. *)
Fixpoint create_loop (fuel : nat) (i : Z) (bucket_sizes bucket_list_sizes : list Z)
    (bucket_data : Z) : result (list TheEntitytainerBucketList * Z) :=
  match fuel with
  | O => Ok ([], bucket_data)
  | S fuel' =>
      b ← arr_get bucket_sizes i;
      ENTITYTAINER_assert
        (bool_decide (sizeof_int <= size_t (b * sizeof_TheEntitytainerEntity)));;
      n ← arr_get bucket_list_sizes i;
      let extent := sint32 (b * n) in
      if bool_decide (0 <= extent) then
        let list :=
          {| buckets := replicate (Z.to_nat extent) 0;
             bucket_size := b;
             total_buckets := n;
             first_free_bucket := ENTITYTAINER_NoFreeBucket;
             used_buckets := if bool_decide (i = 0) then 1 else 0 |} in
        '(rest, bucket_data') ←
          create_loop fuel' (i + 1) bucket_sizes bucket_list_sizes (bucket_data + extent);
        Ok (list :: rest, bucket_data')
      else Undefined
  end.

(** [entitytainer_create]: the buffer is zeroed, so both lookup arrays and
    the two counters of the header start at zero (the function stores
    neither [num_bucket_lists] nor [entry_lookup_size]); the two final
    assertions read the first entity of the carved data and compare the end
    of the carved data with the end of the buffer.  The size given to
    [memset] and the sizes of the regions carved before the loop are
    [size_t] values: a [memory_size], [num_entries] or [num_bucket_lists]
    below zero makes them reach outside the buffer. *)
Definition entitytainer_create (ts : TargetSizes) (memory_size num_entries : Z)
    (bucket_sizes bucket_list_sizes : list Z) (num_bucket_lists : Z)
  : result TheEntitytainer :=
  if bool_decide (0 <= memory_size /\ 0 <= num_entries /\ 0 <= num_bucket_lists) then
    '(lists, bucket_data) ←
      create_loop (Z.to_nat num_bucket_lists) 0 bucket_sizes bucket_list_sizes 0;
    bucket_data_start ← arr_get (concat (buckets <$> lists)) 0;
    ENTITYTAINER_assert (bool_decide (bucket_data_start = 0));;
    ENTITYTAINER_assert
      (bool_decide (sizeof_TheEntitytainer ts
                    + sizeof_TheEntitytainerEntry * num_entries
                    + sizeof_TheEntitytainerEntity * num_entries
                    + sizeof_TheEntitytainerBucketList ts * num_bucket_lists
                    + sizeof_TheEntitytainerEntity * bucket_data = memory_size));;
    Ok {| entry_lookup := replicate (Z.to_nat num_entries) 0;
          entry_reverse_lookup := replicate (Z.to_nat num_entries) 0;
          bucket_lists := lists;
          num_bucket_lists := 0;
          entry_lookup_size := 0 |}
  else Undefined.

(** ** Drawing a bucket from a bucket list

    The header repeats these lines in [entitytainer_add_entity],
    [entitytainer_add_child] and [entitytainer_remove_child]:
<<
    int bucket_index = list->used_buckets;
    if ( list->first_free_bucket != ENTITYTAINER_NoFreeBucket ) {
        bucket_index            = list->first_free_bucket;
        list->first_free_bucket = list->buckets[list->first_free_bucket];
    }
>>
    The new head of the free list is the entity at index
    [first_free_bucket] of the slab. *)
Definition take_bucket (list : TheEntitytainerBucketList)
  : result (Z * TheEntitytainerBucketList) :=
  if bool_decide (first_free_bucket list <> ENTITYTAINER_NoFreeBucket) then
    next ← arr_get (buckets list) (first_free_bucket list);
    Ok (first_free_bucket list, set_first_free_bucket list next)
  else Ok (used_buckets list, list).

(** ** Decoding a lookup word *)

Definition lookup_bucket_list_index (lookup : Z) : Z :=
  Z.shiftr lookup ENTITYTAINER_BucketListOffset.

Definition lookup_bucket_index (lookup : Z) : Z :=
  Z.land lookup ENTITYTAINER_BucketMask.

(** [bucket_index * bucket_list->bucket_size]. *)
Definition bucket_offset_of (list : TheEntitytainerBucketList) (bucket_index : Z) : Z :=
  sint32 (bucket_index * bucket_size list).

(** The lookup word written after a migration to [bucket_list_index]. *)
Definition lookup_encode (bucket_list_index bucket_index : Z) : Z :=
  let bucket_list_index_new :=
    sint32 (Z.shiftl bucket_list_index ENTITYTAINER_BucketListOffset) in
  let lookup_new := uint16 bucket_list_index_new in
  uint16 (Z.lor lookup_new (uint16 bucket_index)).

(** ** Mutations *)

(** [entitytainer_add_entity].  The header does not compare
    [used_buckets] with [total_buckets]: the store of the count is
    [Undefined] here when the bucket drawn lies outside the slab of the
    first list, where the header writes into the slab that follows. *)
Definition entitytainer_add_entity (s : TheEntitytainer) (entity : Z)
  : result TheEntitytainer :=
  l ← arr_get (entry_lookup s) entity;
  ENTITYTAINER_assert (bool_decide (l = 0));;
  bucket_list ← bucket_list_at s 0;
  '(bucket_index, bucket_list) ← take_bucket bucket_list;
  let bucket_list := set_used_buckets bucket_list (sint32 (used_buckets bucket_list + 1)) in
  l ← arr_get (entry_lookup s) entity;
  ENTITYTAINER_assert (bool_decide (l = 0));;
  lookup' ← arr_set (entry_lookup s) entity (uint16 bucket_index);
  buckets' ← arr_set (buckets bucket_list) (bucket_offset_of bucket_list bucket_index) 0;
  Ok (store_bucket_list (set_entry_lookup s lookup') 0 (set_buckets bucket_list buckets')).

(** The scan of [entitytainer_remove_child]:
<<
    while ( *child_temp != child && i < num_children ) { ++i; ++child; }
>>
    [child_temp] stays at the first child slot, whose value is [first]; the
    loop advances the counter and the parameter [child] (a [short]).  The
    result is the final [(i, child)]. *)
Fixpoint remove_child_scan (fuel : nat) (first child i num_children : Z) : Z * Z :=
  match fuel with
  | O => (i, child)
  | S fuel' =>
      if bool_decide (first <> child) && bool_decide (i < num_children)
      then remove_child_scan fuel' first (sint16 (child + 1)) (i + 1) num_children
      else (i, child)
  end.

(** The block of [entitytainer_remove_child] guarded by the test for a
    downward migration: a bucket is drawn from the previous bucket list,
    [bucket_size] entities of that list are copied into it from the current
    bucket (the one at [bucket_offset] of [bucket_list]), both counters are
    adjusted and the lookup word of [parent] is rewritten. *)
Definition remove_child_migrate (s : TheEntitytainer) (parent bucket_list_index : Z)
    (bucket_list bucket_list_prev : TheEntitytainerBucketList) (bucket_offset : Z)
  : result TheEntitytainer :=
  '(bucket_index_new, bucket_list_new) ← take_bucket bucket_list_prev;
  let bucket_offset_new := bucket_offset_of bucket_list_new bucket_index_new in
  buckets_new ←
    ENTITYTAINER_memcpy (buckets bucket_list_new) bucket_offset_new
      (buckets bucket_list) bucket_offset (bucket_size bucket_list_new);
  let bucket_list_new :=
    set_used_buckets (set_buckets bucket_list_new buckets_new)
      (sint32 (used_buckets bucket_list_new + 1)) in
  let bucket_list := set_used_buckets bucket_list (sint32 (used_buckets bucket_list - 1)) in
  lookup' ←
    arr_set (entry_lookup s) parent (lookup_encode (bucket_list_index - 1) bucket_index_new);
  Ok (store_bucket_list
        (store_bucket_list (set_entry_lookup s lookup') bucket_list_index bucket_list)
        (bucket_list_index - 1) bucket_list_new).

Definition entitytainer_remove_child (s : TheEntitytainer) (parent child : Z)
  : result TheEntitytainer :=
  lookup ← arr_get (entry_lookup s) parent;
  ENTITYTAINER_assert (bool_decide (lookup <> 0));;
  let bucket_list_index := lookup_bucket_list_index lookup in
  bucket_list ← bucket_list_at s bucket_list_index;
  let bucket_index := lookup_bucket_index lookup in
  let bucket_offset := bucket_offset_of bucket_list bucket_index in
  num_children ← arr_get (buckets bucket_list) bucket_offset;
  first ← arr_get (buckets bucket_list) (bucket_offset + 1);
  let '(i, child) := remove_child_scan (Z.to_nat num_children) first child 0 num_children in
  ASSERT (bool_decide (i < num_children));;
  buckets1 ←
    ENTITYTAINER_memmove (buckets bucket_list) (bucket_offset + 1) (bucket_offset + 2)
      (num_children - i - 1);
  count ← arr_get buckets1 bucket_offset;
  let count := sint16 (count - 1) in
  buckets2 ← arr_set buckets1 bucket_offset count;
  let bucket_list := set_buckets bucket_list buckets2 in
  s ←
    (if bool_decide (0 < bucket_list_index) then
       bucket_list_prev ← bucket_list_at s (bucket_list_index - 1);
       if bool_decide (count + 1 = bucket_size bucket_list_prev)
       then remove_child_migrate s parent bucket_list_index bucket_list bucket_list_prev
              bucket_offset
       else Ok (store_bucket_list s bucket_list_index bucket_list)
     else Ok (store_bucket_list s bucket_list_index bucket_list));
  reverse' ← arr_set (entry_reverse_lookup s) child 0;
  Ok (set_entry_reverse_lookup s reverse').

Definition entitytainer_remove_entity (s : TheEntitytainer) (entity : Z)
  : result TheEntitytainer :=
  lookup ← arr_get (entry_lookup s) entity;
  parent ← arr_get (entry_reverse_lookup s) entity;
  '(s, lookup) ←
    (if bool_decide (parent <> 0) then
       s' ← entitytainer_remove_child s parent entity;
       lookup' ← arr_get (entry_lookup s') entity;
       Ok (s', lookup')
     else Ok (s, lookup));
  if bool_decide (lookup = 0) then Ok s
  else
    let bucket_list_index := lookup_bucket_list_index lookup in
    bucket_list ← bucket_list_at s bucket_list_index;
    let bucket_index := lookup_bucket_index lookup in
    let bucket_offset := bucket_offset_of bucket_list bucket_index in
    buckets' ← arr_set_int (buckets bucket_list) bucket_offset (first_free_bucket bucket_list);
    let bucket_list := set_first_free_bucket (set_buckets bucket_list buckets') bucket_index in
    lookup' ← arr_set (entry_lookup s) entity 0;
    let bucket_list := set_used_buckets bucket_list (sint32 (used_buckets bucket_list - 1)) in
    Ok (store_bucket_list (set_entry_lookup s lookup') bucket_list_index bucket_list).

(** The block of [entitytainer_add_child] guarded by the migration test.  It
    returns the new container and the place of the bucket the insertion
    goes on with: the index of its bucket list and its offset in the slab
    ([bucket = bucket_new]). *)
Definition add_child_migrate (s : TheEntitytainer) (parent bucket_list_index : Z)
    (bucket_list : TheEntitytainerBucketList) (bucket_offset : Z)
  : result (TheEntitytainer * Z * Z) :=
  ASSERT (bool_decide (bucket_list_index <> 3));;
  bucket_list_new ← bucket_list_at s (bucket_list_index + 1);
  '(bucket_index_new, bucket_list_new) ← take_bucket bucket_list_new;
  let bucket_offset_new := bucket_offset_of bucket_list_new bucket_index_new in
  buckets_new ←
    ENTITYTAINER_memcpy (buckets bucket_list_new) bucket_offset_new
      (buckets bucket_list) bucket_offset (bucket_size bucket_list);
  let bucket_list_new :=
    set_used_buckets (set_buckets bucket_list_new buckets_new)
      (sint32 (used_buckets bucket_list_new + 1)) in
  let bucket_list := set_used_buckets bucket_list (sint32 (used_buckets bucket_list - 1)) in
  lookup' ←
    arr_set (entry_lookup s) parent (lookup_encode (bucket_list_index + 1) bucket_index_new);
  Ok (store_bucket_list
        (store_bucket_list (set_entry_lookup s lookup') bucket_list_index bucket_list)
        (bucket_list_index + 1) bucket_list_new,
      bucket_list_index + 1, bucket_offset_new).

(** The tail of [entitytainer_add_child]: the count of the bucket goes up by
    one, the child is stored in the slot the new count names, and the
    reverse lookup of the child is set. *)
Definition add_child_insert (s : TheEntitytainer) (parent child : Z)
    (bucket_list_index bucket_offset : Z) : result TheEntitytainer :=
  bucket_list ← bucket_list_at s bucket_list_index;
  count ← arr_get (buckets bucket_list) bucket_offset;
  let count := sint16 (count + 1) in
  buckets1 ← arr_set (buckets bucket_list) bucket_offset count;
  buckets2 ← arr_set buckets1 (bucket_offset + count) child;
  reverse' ← arr_set (entry_reverse_lookup s) child parent;
  Ok (set_entry_reverse_lookup
        (store_bucket_list s bucket_list_index (set_buckets bucket_list buckets2))
        reverse').

Definition entitytainer_add_child (s : TheEntitytainer) (parent child : Z)
  : result TheEntitytainer :=
  lookup ← arr_get (entry_lookup s) parent;
  ENTITYTAINER_assert (bool_decide (lookup <> 0));;
  let bucket_list_index := lookup_bucket_list_index lookup in
  bucket_list ← bucket_list_at s bucket_list_index;
  let bucket_index := lookup_bucket_index lookup in
  let bucket_offset := bucket_offset_of bucket_list bucket_index in
  count ← arr_get (buckets bucket_list) bucket_offset;
  '(s, bucket_list_index, bucket_offset) ←
    (if bool_decide (count + 1 = bucket_size bucket_list)
     then add_child_migrate s parent bucket_list_index bucket_list bucket_offset
     else Ok (s, bucket_list_index, bucket_offset));
  add_child_insert s parent child bucket_list_index bucket_offset.

(** ** Read queries *)

(** A pointer into the slab of a bucket list, with the number of entities
    that may be read through it: what [entitytainer_get_children] stores
    through its two out parameters. *)
Record ChildrenView : Type := {
  view_bucket_list : Z;
  view_offset : Z;
  view_num_children : Z
}.

Definition entitytainer_get_children (s : TheEntitytainer) (parent : Z)
  : result ChildrenView :=
  lookup ← arr_get (entry_lookup s) parent;
  ENTITYTAINER_assert (bool_decide (lookup <> 0));;
  let bucket_list_index := lookup_bucket_list_index lookup in
  bucket_list ← bucket_list_at s bucket_list_index;
  let bucket_index := lookup_bucket_index lookup in
  let bucket_offset := bucket_offset_of bucket_list bucket_index in
  num_children ← arr_get (buckets bucket_list) bucket_offset;
  Ok {| view_bucket_list := bucket_list_index;
        view_offset := bucket_offset + 1;
        view_num_children := num_children |}.

(** The entities the caller reads through the view: [children[0]] to
    [children[num_children - 1]]. *)
Definition view_children (s : TheEntitytainer) (v : ChildrenView) : result (list Z) :=
  bucket_list ← bucket_list_at s (view_bucket_list v);
  arr_read_n (buckets bucket_list) (view_offset v) (view_num_children v).

Definition get_children_list (s : TheEntitytainer) (parent : Z) : result (list Z) :=
  v ← entitytainer_get_children s parent;
  view_children s v.

Definition entitytainer_num_children (s : TheEntitytainer) (parent : Z) : result Z :=
  lookup ← arr_get (entry_lookup s) parent;
  ENTITYTAINER_assert (bool_decide (lookup <> 0));;
  let bucket_list_index := lookup_bucket_list_index lookup in
  bucket_list ← bucket_list_at s bucket_list_index;
  let bucket_index := lookup_bucket_index lookup in
  let bucket_offset := bucket_offset_of bucket_list bucket_index in
  arr_get (buckets bucket_list) bucket_offset.

Fixpoint get_child_index_loop (fuel : nat) (i : Z) (bucket : list Z) (bucket_offset : Z)
    (num_children child : Z) : result Z :=
  match fuel with
  | O => Ok (-1)
  | S fuel' =>
      c ← arr_get bucket (bucket_offset + (1 + i));
      if bool_decide (c = child) then Ok i
      else get_child_index_loop fuel' (i + 1) bucket bucket_offset num_children child
  end.

Definition entitytainer_get_child_index (s : TheEntitytainer) (parent child : Z)
  : result Z :=
  lookup ← arr_get (entry_lookup s) parent;
  ENTITYTAINER_assert (bool_decide (lookup <> 0));;
  let bucket_list_index := lookup_bucket_list_index lookup in
  bucket_list ← bucket_list_at s bucket_list_index;
  let bucket_index := lookup_bucket_index lookup in
  let bucket_offset := bucket_offset_of bucket_list bucket_index in
  num_children ← arr_get (buckets bucket_list) bucket_offset;
  get_child_index_loop (Z.to_nat num_children) 0 (buckets bucket_list) bucket_offset
    num_children child.

Definition entitytainer_get_parent (s : TheEntitytainer) (child : Z) : result Z :=
  arr_get (entry_reverse_lookup s) child.

(** ** Reallocation policy

    [float] is IEEE 754 single precision: 24 bits of precision, infinities
    at exponent 128.  An [int] operand is converted to [float] (rounding to
    nearest even), the product is taken in [float], and the cast to [int]
    drops the fraction; the cast of a value outside the range of [int], of
    an infinity or of a NaN is undefined. *)

Definition float : Type := spec_float.

Definition float_of_int (n : Z) : float := binary_normalize 24 128 n 0 false.

Definition float_mul (x y : float) : float := SFmul 24 128 x y.

(** [x >= 0]. *)
Definition float_ge_zero (x : float) : bool := SFleb (S754_zero false) x.

(** The integer part of the magnitude [m * 2^e]. *)
Definition float_magnitude (m : positive) (e : Z) : Z := Z.shiftl (Z.pos m) e.

Definition int_of_float (x : float) : result Z :=
  match x with
  | S754_zero _ => Ok 0
  | S754_finite sign m e =>
      let v := if sign then - float_magnitude m e else float_magnitude m e in
      if bool_decide (INT_MIN <= v <= INT_MAX) then Ok v else Undefined
  | S754_infinity _ | S754_nan => Undefined
  end.

(** The number of free buckets a bucket list is compared with: the value of
    [num_free_buckets] at the test of the loop body. *)
Definition realloc_threshold (percent_free : float) (num_free_buckets : Z)
    (list : TheEntitytainerBucketList) : result Z :=
  if float_ge_zero percent_free
  then int_of_float (float_mul (float_of_int (total_buckets list)) percent_free)
  else Ok num_free_buckets.

Fixpoint needs_realloc_loop (fuel : nat) (i : Z) (s : TheEntitytainer)
    (percent_free : float) (num_free_buckets : Z) : result bool :=
  match fuel with
  | O => Ok false
  | S fuel' =>
      list ← bucket_list_at s i;
      num_free_buckets ← realloc_threshold percent_free num_free_buckets list;
      if bool_decide (sint32 (total_buckets list - used_buckets list) <= num_free_buckets)
      then Ok true
      else needs_realloc_loop fuel' (i + 1) s percent_free num_free_buckets
  end.

Definition entitytainer_needs_realloc (s : TheEntitytainer) (percent_free : float)
    (num_free_buckets : Z) : result bool :=
  needs_realloc_loop (Z.to_nat (num_bucket_lists s)) 0 s percent_free num_free_buckets.

(** ** Scenarios: a container and a list of calls *)

Inductive call : Type :=
  | AddEntity (entity : Z)
  | RemoveEntity (entity : Z)
  | AddChild (parent child : Z)
  | RemoveChild (parent child : Z).

Definition run_call (s : TheEntitytainer) (c : call) : result TheEntitytainer :=
  match c with
  | AddEntity e => entitytainer_add_entity s e
  | RemoveEntity e => entitytainer_remove_entity s e
  | AddChild p c => entitytainer_add_child s p c
  | RemoveChild p c => entitytainer_remove_child s p c
  end.

Fixpoint run_calls (s : TheEntitytainer) (cs : list call) : result TheEntitytainer :=
  match cs with
  | [] => Ok s
  | c :: cs' => s' ← run_call s c; run_calls s' cs'
  end.

(** The container of the usage example of the header: 1024 entities, bucket
    sizes 4, 16 and 256, with 4, 2 and 2 buckets. *)
Definition example_sizes : list Z := [4; 16; 256].
Definition example_counts : list Z := [4; 2; 2].

Definition example_container : result TheEntitytainer :=
  needed_memory_size ← entitytainer_needed_size lp64 1024 example_sizes example_counts 3;
  entitytainer_create lp64 needed_memory_size 1024 example_sizes example_counts 3.

Definition run_example (cs : list call) : result TheEntitytainer :=
  s ← example_container; run_calls s cs.

(** A container like the example one, with 128 buckets of four entities. *)
Definition wide_counts : list Z := [128; 2; 2].

Definition wide_container : result TheEntitytainer :=
  needed_memory_size ← entitytainer_needed_size lp64 1024 example_sizes wide_counts 3;
  entitytainer_create lp64 needed_memory_size 1024 example_sizes wide_counts 3.

(** The int stored over the two entity slots at [off]: what
    [*(int* )(a + off)] reads back after [arr_set_int]. *)
Definition arr_get_int (a : list Z) (off : Z) : result Z :=
  lo ← arr_get a off;
  hi ← arr_get a (off + 1);
  Ok (sint32 (uint16 lo + 65536 * uint16 hi)).

(** The sum the specification gives for the sizing calculator, in exact
    integers. *)
Definition slab_bytes (bucket_sizes bucket_list_sizes : list Z) : list Z :=
  zip_with (fun b n => n * b * sizeof_TheEntitytainerEntity) bucket_sizes bucket_list_sizes.

Definition sum_Z (l : list Z) : Z := foldr Z.add 0 l.

Definition spec_needed_size (ts : TargetSizes) (max_entities : Z)
    (bucket_sizes bucket_counts : list Z) (T : Z) : Z :=
  sizeof_TheEntitytainer ts
  + max_entities * sizeof_TheEntitytainerEntry
  + max_entities * sizeof_TheEntitytainerEntity
  + T * sizeof_TheEntitytainerBucketList ts
  + sum_Z (take (Z.to_nat T) (slab_bytes bucket_sizes bucket_counts)).

(** The threshold in the words of the specification: the floor of the
    product of the total number of buckets and the fraction (the product
    taken in [float]) when the fraction is not negative, the absolute count
    otherwise. *)
Definition float_floor (x : float) : result Z :=
  match x with
  | S754_zero _ => Ok 0
  | S754_finite sign m e =>
      let v := Z.shiftl (if sign then Z.neg m else Z.pos m) e in
      if bool_decide (INT_MIN <= v <= INT_MAX) then Ok v else Undefined
  | S754_infinity _ | S754_nan => Undefined
  end.

Definition spec_threshold (percent_free : float) (abs_free : Z)
    (list : TheEntitytainerBucketList) : result Z :=
  if float_ge_zero percent_free
  then float_floor (float_mul (float_of_int (total_buckets list)) percent_free)
  else Ok abs_free.

Definition set_num_bucket_lists (s : TheEntitytainer) (n : Z) :=
  {| entry_lookup := entry_lookup s; entry_reverse_lookup := entry_reverse_lookup s;
     bucket_lists := bucket_lists s; num_bucket_lists := n;
     entry_lookup_size := entry_lookup_size s |}.

(** A float that is not a negative finite number. *)
Definition nonneg_sign (x : float) : Prop :=
  match x with
  | S754_finite sign _ _ => sign = false
  | _ => True
  end.

(** The bucket list at index [j] is there and the difference of its two
    counters is in the range of [int]. *)
Definition list_in_range (s : TheEntitytainer) (j : Z) (list : TheEntitytainerBucketList)
  : Prop :=
  bucket_list_at s j = Ok list /\
  INT_MIN <= total_buckets list - used_buckets list <= INT_MAX.

(** 0.75 as a [float]. *)
Definition three_quarters : float := S754_finite false 12582912 (-24).

(** The layout of a container: what construction fixes and no later call
    is meant to change.  Two bucket lists have the same shape when they
    agree on the bucket size, on the total number of buckets and on the
    length of the slab. *)
Definition same_list_shape (l l' : TheEntitytainerBucketList) : Prop :=
  bucket_size l' = bucket_size l /\
  total_buckets l' = total_buckets l /\
  length (buckets l') = length (buckets l).

Definition same_shape (s s' : TheEntitytainer) : Prop :=
  length (entry_lookup s') = length (entry_lookup s) /\
  length (entry_reverse_lookup s') = length (entry_reverse_lookup s) /\
  Forall2 same_list_shape (bucket_lists s) (bucket_lists s') /\
  num_bucket_lists s' = num_bucket_lists s /\
  entry_lookup_size s' = entry_lookup_size s.

(** * Properties *)

(** ** The [result] monad *)

Lemma bind_Ok {A B : Type} (m : result A) (f : A -> result B) (b : B) :
  m ≫= f = Ok b -> exists a, m = Ok a /\ f a = Ok b.
Proof. destruct m as [a| |]; simpl; intros H; [eauto | discriminate..]. Qed.

Lemma assert_Ok (c : bool) (u : unit) : ENTITYTAINER_assert c = Ok u -> c = true.
Proof. destruct c; [reflexivity | discriminate]. Qed.

(** Split a hypothesis [x ← m; k = Ok r] into [m = Ok x] and [k = Ok r]. *)
Tactic Notation "bind_inv" hyp(H) :=
  let x := fresh "x" in
  let Hx := fresh "H" x in
  apply bind_Ok in H; destruct H as (x & Hx & H).

Tactic Notation "bind_inv" hyp(H) "as" simple_intropattern(x) ident(Hx) :=
  apply bind_Ok in H; destruct H as (x & Hx & H).

(** Prove the first conjunct of the goal by evaluation and keep it as [H]. *)
Ltac conj_compute H :=
  match goal with
  | |- ?A /\ _ => assert A as H by (vm_compute; reflexivity); split; [exact H |]
  end.

(** ** Machine integers *)

Lemma sint32_small (z : Z) : INT_MIN <= z <= INT_MAX -> sint32 z = z.
Proof.
  unfold sint32, INT_MIN, INT_MAX. intros H.
  rewrite Z.mod_small by lia. lia.
Qed.

Lemma sint32_range (z : Z) : INT_MIN <= sint32 z <= INT_MAX.
Proof.
  unfold sint32, INT_MIN, INT_MAX.
  pose proof (Z.mod_pos_bound (z + 2147483648) 4294967296). lia.
Qed.

Lemma sint16_small (z : Z) : -32768 <= z <= 32767 -> sint16 z = z.
Proof. unfold sint16. intros H. rewrite Z.mod_small by lia. lia. Qed.

Lemma lookup_bucket_index_mod (lookup : Z) : lookup_bucket_index lookup = lookup mod 64.
Proof.
  unfold lookup_bucket_index, ENTITYTAINER_BucketMask.
  change 0x3f with (Z.ones 6). rewrite Z.land_ones by lia. reflexivity.
Qed.

(** ** Arrays *)

Lemma arr_get_Ok (a : list Z) (i v : Z) :
  arr_get a i = Ok v <-> 0 <= i /\ a !! Z.to_nat i = Some v.
Proof.
  unfold arr_get. case_bool_decide.
  - destruct (a !! Z.to_nat i) eqn:E; split; intros H'.
    + inversion H'; subst; auto.
    + destruct H' as [_ H']. congruence.
    + discriminate.
    + destruct H' as [_ H']. discriminate.
  - split; [discriminate | intros [? _]; lia].
Qed.

Lemma arr_set_Ok (a a' : list Z) (i v : Z) :
  arr_set a i v = Ok a' <-> 0 <= i < Z.of_nat (length a) /\ a' = <[Z.to_nat i := v]> a.
Proof.
  unfold arr_set. case_bool_decide; split; intros H'.
  - inversion H'; auto.
  - destruct H' as [_ ->]. reflexivity.
  - discriminate.
  - destruct H' as [? _]. contradiction.
Qed.

Lemma arr_get_set_eq (a a' : list Z) (i v : Z) :
  arr_set a i v = Ok a' -> arr_get a' i = Ok v.
Proof.
  intros [Hi ->]%arr_set_Ok. apply arr_get_Ok. split; [lia |].
  apply list_lookup_insert_eq. lia.
Qed.

Lemma arr_get_set_ne (a a' : list Z) (i j v : Z) :
  arr_set a i v = Ok a' -> i <> j -> arr_get a' j = arr_get a j.
Proof.
  intros [Hi ->]%arr_set_Ok Hne. unfold arr_get. case_bool_decide; [| reflexivity].
  rewrite list_lookup_insert_ne by lia. reflexivity.
Qed.

Lemma arr_write_n_length (a a' vs : list Z) (off : Z) :
  arr_write_n a off vs = Ok a' -> length a' = length a.
Proof.
  unfold arr_write_n. case_bool_decide as H; [| discriminate].
  intros [= <-]. rewrite !length_app, length_take, length_drop. lia.
Qed.

Lemma arr_read_write_n (a a' vs : list Z) (off : Z) :
  arr_write_n a off vs = Ok a' -> arr_read_n a' off (Z.of_nat (length vs)) = Ok vs.
Proof.
  intros H. pose proof (arr_write_n_length _ _ _ _ H) as Hlen.
  revert H. unfold arr_write_n, arr_read_n. case_bool_decide as H; [| discriminate].
  intros [= <-]. rewrite bool_decide_true by lia. f_equal.
  rewrite Nat2Z.id.
  rewrite drop_app_length' by (rewrite length_take; lia).
  rewrite take_app_length. reflexivity.
Qed.

Lemma arr_read_n_length (a vs : list Z) (off n : Z) :
  arr_read_n a off n = Ok vs -> Z.of_nat (length vs) = n.
Proof.
  unfold arr_read_n. case_bool_decide as H; [| discriminate].
  intros [= <-]. rewrite length_take, length_drop. lia.
Qed.

(** [memcpy] leaves in the destination what it read from the source. *)
Lemma memcpy_Ok (dst dst' src : list Z) (doff soff n : Z) :
  ENTITYTAINER_memcpy dst doff src soff n = Ok dst' ->
  exists vs, arr_read_n src soff n = Ok vs /\ arr_read_n dst' doff n = Ok vs.
Proof.
  unfold ENTITYTAINER_memcpy. intros H. bind_inv H. rename x into vs.
  exists vs. split; [assumption |].
  apply arr_read_write_n in H. apply arr_read_n_length in Hx. rewrite Hx in H. exact H.
Qed.

(** ** Bucket lists of a container *)

Lemma bucket_list_at_Ok (s : TheEntitytainer) (i : Z) (l : TheEntitytainerBucketList) :
  bucket_list_at s i = Ok l <-> 0 <= i /\ bucket_lists s !! Z.to_nat i = Some l.
Proof.
  unfold bucket_list_at. case_bool_decide.
  - destruct (bucket_lists s !! Z.to_nat i) eqn:E; split; intros H'.
    + inversion H'; subst; auto.
    + destruct H' as [_ H']. congruence.
    + discriminate.
    + destruct H' as [_ H']. discriminate.
  - split; [discriminate | intros [? _]; lia].
Qed.

Lemma bucket_list_at_store_eq (s : TheEntitytainer) (i : Z)
    (l l0 : TheEntitytainerBucketList) :
  bucket_list_at s i = Ok l0 -> bucket_list_at (store_bucket_list s i l) i = Ok l.
Proof.
  intros [Hi Hl]%bucket_list_at_Ok. apply bucket_list_at_Ok. split; [assumption |].
  simpl. apply list_lookup_insert_eq. eapply lookup_lt_Some, Hl.
Qed.

Lemma bucket_list_at_store_ne (s : TheEntitytainer) (i j : Z)
    (l : TheEntitytainerBucketList) :
  0 <= i -> i <> j -> bucket_list_at (store_bucket_list s i l) j = bucket_list_at s j.
Proof.
  intros Hi Hne. unfold bucket_list_at. case_bool_decide; [| reflexivity].
  simpl. rewrite list_lookup_insert_ne by lia. reflexivity.
Qed.

(** ** Drawing a bucket *)

(** When the free list is not empty, the bucket drawn is its head and the
    new head is the entity at index [first_free_bucket] of the slab. *)
Lemma take_bucket_free (list list' : TheEntitytainerBucketList) (i : Z) :
  first_free_bucket list <> ENTITYTAINER_NoFreeBucket ->
  take_bucket list = Ok (i, list') ->
  i = first_free_bucket list /\
  arr_get (buckets list) (first_free_bucket list) = Ok (first_free_bucket list') /\
  buckets list' = buckets list /\ bucket_size list' = bucket_size list /\
  used_buckets list' = used_buckets list.
Proof.
  intros Hfree. unfold take_bucket. rewrite bool_decide_true by assumption.
  intros H. bind_inv H. inversion H; subst. simpl. auto.
Qed.

Lemma take_bucket_bump (list list' : TheEntitytainerBucketList) (i : Z) :
  first_free_bucket list = ENTITYTAINER_NoFreeBucket ->
  take_bucket list = Ok (i, list') ->
  i = used_buckets list /\ list' = list.
Proof.
  intros Hfree. unfold take_bucket. rewrite bool_decide_false by (intros ?; contradiction).
  intros [= <- <-]. auto.
Qed.

(** Drawing a bucket changes the head of the free list only. *)
Lemma take_bucket_fields (list list' : TheEntitytainerBucketList) (i : Z) :
  take_bucket list = Ok (i, list') ->
  buckets list' = buckets list /\ bucket_size list' = bucket_size list /\
  total_buckets list' = total_buckets list /\ used_buckets list' = used_buckets list.
Proof.
  unfold take_bucket. case_bool_decide as Hfree; intros H.
  - bind_inv H as next Hnext. inversion H; subst. simpl. auto.
  - inversion H; subst. auto.
Qed.

(** ** Scenarios of the specification, run on the code *)

(** Scenario S1: one entity with one child. *)
Example scenario_add_get :
  exists s,
    run_example [AddEntity 3; AddChild 3 10] = Ok s /\
    entitytainer_num_children s 3 = Ok 1 /\
    get_children_list s 3 = Ok [10] /\
    entitytainer_get_child_index s 3 10 = Ok 0 /\
    entitytainer_get_child_index s 3 11 = Ok (-1) /\
    entitytainer_get_parent s 10 = Ok 3.
Proof.
  eexists. split; [vm_compute; reflexivity |].
  split; [vm_compute; reflexivity |].
  split; [vm_compute; reflexivity |].
  split; [vm_compute; reflexivity |].
  split; vm_compute; reflexivity.
Qed.

(** Migration up and down again: the fourth child moves the parent to the
    second bucket list, and removing the first child moves it back. *)
Example scenario_migrate_up_down :
  exists s s',
    run_example [AddEntity 5; AddChild 5 100; AddChild 5 101; AddChild 5 102;
                 AddChild 5 103] = Ok s /\
    (lookup ← arr_get (entry_lookup s) 5; Ok (lookup_bucket_list_index lookup)) = Ok 1 /\
    get_children_list s 5 = Ok [100; 101; 102; 103] /\
    entitytainer_remove_child s 5 100 = Ok s' /\
    (lookup ← arr_get (entry_lookup s') 5; Ok (lookup_bucket_list_index lookup)) = Ok 0 /\
    get_children_list s' 5 = Ok [101; 102; 103].
Proof.
  do 2 eexists. split; [vm_compute; reflexivity |].
  split; [vm_compute; reflexivity |].
  split; [vm_compute; reflexivity |].
  split; [vm_compute; reflexivity |].
  split; vm_compute; reflexivity.
Qed.

(** ** Removing a child *)

(** The scan moves the counter and the child it looks for together, and
    never the slot it reads. *)
Lemma remove_child_scan_spec (fuel : nat) (first child i n : Z) :
  forall i' child', remove_child_scan fuel first child i n = (i', child') ->
  exists k : nat, i' = i + Z.of_nat k /\ (k <= fuel)%nat /\
    child' = Nat.iter k (fun c => sint16 (c + 1)) child.
Proof.
  revert child i. induction fuel as [| fuel IH]; intros child i i' child' H; simpl in H.
  - inversion H; subst. exists 0%nat. simpl. split; [lia | split; [lia | reflexivity]].
  - destruct (bool_decide (first <> child) && bool_decide (i < n)) eqn:E.
    + apply IH in H. destruct H as (k & -> & Hk & ->).
      exists (S k). split; [lia | split; [lia |]].
      rewrite Nat.iter_succ_r. reflexivity.
    + inversion H; subst. exists 0%nat. simpl. split; [lia | split; [lia | reflexivity]].
Qed.

(** With [num_children - i] steps of fuel the scan stops because its
    condition is false, as the [while] loop does. *)
Lemma remove_child_scan_exit (first child i n : Z) :
  forall i' child',
  remove_child_scan (Z.to_nat (n - i)) first child i n = (i', child') ->
  first = child' \/ n <= i'.
Proof.
  remember (Z.to_nat (n - i)) as fuel eqn:Hfuel.
  revert child i Hfuel. induction fuel as [| fuel IH]; intros child i Hfuel i' child' H;
    simpl in H.
  - inversion H; subst. right. lia.
  - destruct (bool_decide (first <> child)) eqn:E1; simpl in H.
    + destruct (bool_decide (i < n)) eqn:E2.
      * apply (IH (sint16 (child + 1)) (i + 1)); [lia | exact H].
      * inversion H; subst. apply bool_decide_eq_false in E2. right. lia.
    + inversion H; subst. apply bool_decide_eq_false in E1.
      left. destruct (decide (first = child')); [assumption | contradiction].
Qed.

(** More fuel does not change the result. *)
Lemma remove_child_scan_fuel (extra : nat) (first child i n : Z) :
  remove_child_scan (Z.to_nat (n - i) + extra) first child i n
  = remove_child_scan (Z.to_nat (n - i)) first child i n.
Proof.
  remember (Z.to_nat (n - i)) as fuel eqn:Hfuel.
  revert child i Hfuel. induction fuel as [| fuel IH]; intros child i Hfuel.
  - destruct extra as [| extra]; simpl; [reflexivity |].
    rewrite (bool_decide_false (i < n)) by lia. rewrite andb_false_r. reflexivity.
  - simpl. destruct (bool_decide (first <> child) && bool_decide (i < n)); [| reflexivity].
    apply IH. lia.
Qed.

(** A call that succeeds found the value of the first child slot equal to
    [child + i] for the number [i] of steps it took: the scan never looks at
    a later slot. *)
Lemma remove_child_reads_first_slot_only (s s' : TheEntitytainer) (parent child : Z) :
  entitytainer_remove_child s parent child = Ok s' ->
  exists lookup list num_children first (k : nat),
    arr_get (entry_lookup s) parent = Ok lookup /\
    bucket_list_at s (lookup_bucket_list_index lookup) = Ok list /\
    arr_get (buckets list) (bucket_offset_of list (lookup_bucket_index lookup))
      = Ok num_children /\
    arr_get (buckets list) (bucket_offset_of list (lookup_bucket_index lookup) + 1)
      = Ok first /\
    Z.of_nat k < num_children /\
    first = Nat.iter k (fun c => sint16 (c + 1)) child.
Proof.
  unfold entitytainer_remove_child. intros H.
  bind_inv H. rename x into lookup. bind_inv H. apply assert_Ok in Hx0.
  bind_inv H. rename x0 into list. bind_inv H. rename x0 into n.
  bind_inv H. rename x0 into first.
  destruct (remove_child_scan (Z.to_nat n) first child 0 n) as [i child'] eqn:Escan.
  bind_inv H. apply assert_Ok, bool_decide_eq_true in Hx4.
  pose proof Escan as Hexit. replace n with (n - 0) in Hexit at 1 by lia.
  apply remove_child_scan_exit in Hexit.
  apply remove_child_scan_spec in Escan. destruct Escan as (k & -> & _ & ->).
  exists lookup, list, n, first, k. repeat split; try assumption; lia.
Qed.

(** C1 (scenario S5).  In the example container, after [add_entity(9)] and
    [add_child(9,20)], [add_child(9,21)], [add_child(9,22)], the children of
    9 are 20, 21, 22 in this order; [remove_child(9,21)] then fails the
    assertion that the child was found, where the specification expects the
    children 20, 22: the scan compares the first slot with 21, 22, 23 and
    24 and never reads the second one. *)
Theorem remove_child_middle_child_assertion :
  exists s,
    run_example [AddEntity 9; AddChild 9 20; AddChild 9 21; AddChild 9 22] = Ok s /\
    get_children_list s 9 = Ok [20; 21; 22] /\
    entitytainer_remove_child s 9 21 = AssertFailed.
Proof.
  eexists. split; [vm_compute; reflexivity |].
  split; vm_compute; reflexivity.
Qed.

(** Removing the first child is the one case in which the scan finds its
    child; the later children then move left and keep their order. *)
Example remove_child_first_child :
  exists s s',
    run_example [AddEntity 9; AddChild 9 20; AddChild 9 21; AddChild 9 22] = Ok s /\
    entitytainer_remove_child s 9 20 = Ok s' /\
    get_children_list s' 9 = Ok [21; 22] /\
    entitytainer_get_parent s' 20 = Ok 0.
Proof.
  do 2 eexists. split; [vm_compute; reflexivity |].
  split; [vm_compute; reflexivity |].
  split; vm_compute; reflexivity.
Qed.

(** ** When [add_child] migrates *)

(** [add_child] is the insertion, after the migration when the bucket is
    full. *)
Lemma add_child_unfold (s : TheEntitytainer) (parent child lookup count : Z)
    (list : TheEntitytainerBucketList) :
  arr_get (entry_lookup s) parent = Ok lookup ->
  lookup <> 0 ->
  bucket_list_at s (lookup_bucket_list_index lookup) = Ok list ->
  arr_get (buckets list) (bucket_offset_of list (lookup_bucket_index lookup)) = Ok count ->
  entitytainer_add_child s parent child
  = if bool_decide (count + 1 = bucket_size list)
    then
      '(s1, t1, off1) ←
        add_child_migrate s parent (lookup_bucket_list_index lookup) list
          (bucket_offset_of list (lookup_bucket_index lookup));
      add_child_insert s1 parent child t1 off1
    else
      add_child_insert s parent child (lookup_bucket_list_index lookup)
        (bucket_offset_of list (lookup_bucket_index lookup)).
Proof.
  intros HL Hne Hlist Hcount. unfold entitytainer_add_child.
  rewrite HL. cbn [mbind result_bind].
  rewrite (bool_decide_true (lookup <> 0)) by assumption.
  cbn [mbind result_bind ENTITYTAINER_assert].
  rewrite Hlist. cbn [mbind result_bind]. rewrite Hcount. cbn [mbind result_bind].
  case_bool_decide; reflexivity.
Qed.




(** ** The bucket index of a lookup word *)

(** C3.  The bucket index every operation decodes is the low six bits of
    the lookup word.  In the container with 128 small buckets the 64th
    entity added receives bucket 64 and the lookup word 64, which decodes to
    bucket 0 although its low 14 bits are 64: a child added to that entity
    lands in bucket 0 and the entity's own bucket stays empty. *)
Theorem lookup_bucket_index_six_bits :
  exists s s' list',
    (s0 ← wide_container; run_calls s0 (map AddEntity (seqZ 1 64))) = Ok s /\
    arr_get (entry_lookup s) 64 = Ok 64 /\
    lookup_bucket_index 64 = 0 /\
    64 mod 2 ^ 14 = 64 /\
    entitytainer_add_child s 64 500 = Ok s' /\
    bucket_list_at s' 0 = Ok list' /\
    arr_read_n (buckets list') 0 4 = Ok [1; 500; 0; 0] /\
    arr_read_n (buckets list') (64 * 4) 4 = Ok [0; 0; 0; 0] /\
    entitytainer_num_children s' 64 = Ok 1.
Proof.
  do 3 eexists. split; [vm_compute; reflexivity |].
  split; [vm_compute; reflexivity |].
  split; [vm_compute; reflexivity |].
  split; [vm_compute; reflexivity |].
  split; [vm_compute; reflexivity |].
  split; [vm_compute; reflexivity |].
  split; [vm_compute; reflexivity |].
  split; vm_compute; reflexivity.
Qed.

(** ** Popping the free list *)

(** C4 (scenario S4).  After [add_entity(1)], [add_entity(2)],
    [remove_entity(1)], the free list of the first bucket list starts at
    bucket 1 and slot 0 of that bucket holds the int -1.  [add_entity(7)]
    gives bucket 1 to entity 7, but the new head of the free list is 0, the
    entity at index 1 of the slab, and not the -1 stored in slot 0 of the
    bucket that was popped. *)
Theorem add_entity_pops_wrong_next_free :
  exists s list s' list',
    run_example [AddEntity 1; AddEntity 2; RemoveEntity 1] = Ok s /\
    bucket_list_at s 0 = Ok list /\
    first_free_bucket list = 1 /\
    arr_get_int (buckets list) (bucket_offset_of list 1) = Ok (-1) /\
    entitytainer_add_entity s 7 = Ok s' /\
    arr_get (entry_lookup s') 7 = Ok 1 /\
    bucket_list_at s' 0 = Ok list' /\
    first_free_bucket list' = 0.
Proof.
  do 4 eexists. split; [vm_compute; reflexivity |].
  split; [vm_compute; reflexivity |].
  split; [vm_compute; reflexivity |].
  split; [vm_compute; reflexivity |].
  split; [vm_compute; reflexivity |].
  split; [vm_compute; reflexivity |].
  split; vm_compute; reflexivity.
Qed.

(** ** The guard of the upward migration *)

(** The assertion stops a migration out of the fourth bucket list. *)
Lemma add_child_migrate_fourth_list (s : TheEntitytainer) (parent off : Z)
    (list : TheEntitytainerBucketList) :
  add_child_migrate s parent 3 list off = AssertFailed.
Proof. reflexivity. Qed.

(** Out of the last of fewer than four bucket lists the assertion passes
    and the next bucket list, which is not there, is read. *)
Lemma add_child_migrate_last_list (s : TheEntitytainer) (parent t off : Z)
    (list : TheEntitytainerBucketList) :
  0 <= t -> t <> 3 -> Z.of_nat (length (bucket_lists s)) = t + 1 ->
  add_child_migrate s parent t list off = Undefined.
Proof.
  intros Ht Hne Hlen. unfold add_child_migrate, ASSERT.
  rewrite bool_decide_true by assumption. simpl.
  unfold bucket_list_at. rewrite bool_decide_true by lia.
  rewrite (lookup_ge_None_2 (bucket_lists s) (Z.to_nat (t + 1))) by lia.
  reflexivity.
Qed.

(** A full bucket in the last of fewer than four bucket lists: [add_child]
    reads outside the array of bucket lists. *)
Lemma add_child_last_list_full (s : TheEntitytainer) (parent child lookup count : Z)
    (list : TheEntitytainerBucketList) :
  arr_get (entry_lookup s) parent = Ok lookup ->
  lookup <> 0 ->
  bucket_list_at s (lookup_bucket_list_index lookup) = Ok list ->
  arr_get (buckets list) (bucket_offset_of list (lookup_bucket_index lookup)) = Ok count ->
  count + 1 = bucket_size list ->
  lookup_bucket_list_index lookup <> 3 ->
  Z.of_nat (length (bucket_lists s)) = lookup_bucket_list_index lookup + 1 ->
  entitytainer_add_child s parent child = Undefined.
Proof.
  intros HL Hne Hlist Hcount Hfull H3 Hlen.
  rewrite (add_child_unfold _ _ _ _ _ _ HL Hne Hlist Hcount).
  rewrite bool_decide_true by assumption.
  pose proof Hlist as [Ht _]%bucket_list_at_Ok.
  rewrite add_child_migrate_last_list by assumption. reflexivity.
Qed.

(** C5.  In the example container (three bucket lists) a parent with 255
    children sits in the last bucket list, whose buckets hold 256 entities.
    The next [add_child] passes the migration test and the assertion
    [bucket_list_index != 3], and reads a fourth bucket list that does not
    exist: the outcome is an access outside the array, not a failed
    assertion. *)
Theorem add_child_top_tier_unguarded :
  exists s list,
    run_example (AddEntity 5 :: map (AddChild 5) (seqZ 100 255)) = Ok s /\
    length (bucket_lists s) = 3%nat /\
    (lookup ← arr_get (entry_lookup s) 5; Ok (lookup_bucket_list_index lookup)) = Ok 2 /\
    bucket_list_at s 2 = Ok list /\
    bucket_size list = 256 /\
    entitytainer_num_children s 5 = Ok 255 /\
    bucket_list_at s 3 = Undefined /\
    entitytainer_add_child s 5 355 = Undefined.
Proof.
  do 2 eexists. split; [vm_compute; reflexivity |].
  split; [vm_compute; reflexivity |].
  split; [vm_compute; reflexivity |].
  split; [vm_compute; reflexivity |].
  split; [vm_compute; reflexivity |].
  split; [vm_compute; reflexivity |].
  split; vm_compute; reflexivity.
Qed.

(** ** Migration and the reverse lookup *)

Lemma add_child_migrate_reverse_lookup (s s1 : TheEntitytainer) (parent t t1 off off1 : Z)
    (list : TheEntitytainerBucketList) :
  add_child_migrate s parent t list off = Ok (s1, t1, off1) ->
  entry_reverse_lookup s1 = entry_reverse_lookup s.
Proof.
  unfold add_child_migrate. intros H.
  bind_inv H. bind_inv H. bind_inv H. destruct x1 as [i' list_taken].
  bind_inv H. bind_inv H. inversion H; subst. reflexivity.
Qed.

Lemma remove_child_migrate_reverse_lookup (s s1 : TheEntitytainer) (parent t off : Z)
    (list list_prev : TheEntitytainerBucketList) :
  remove_child_migrate s parent t list list_prev off = Ok s1 ->
  entry_reverse_lookup s1 = entry_reverse_lookup s.
Proof.
  unfold remove_child_migrate. intros H.
  bind_inv H. destruct x as [i' list_taken].
  bind_inv H. bind_inv H. inversion H; subst. reflexivity.
Qed.

(** C6.  Neither the upward migration inside [add_child] nor the downward
    migration inside [remove_child] writes the reverse lookup array: the
    array after the migration is the array before it, so an entity has
    parent [p] after the migration exactly if it had before. *)
Theorem migration_keeps_reverse_lookup (s s1 : TheEntitytainer) (parent t t1 off off1 : Z)
    (list list_prev : TheEntitytainerBucketList) :
  add_child_migrate s parent t list off = Ok (s1, t1, off1) \/
  remove_child_migrate s parent t list list_prev off = Ok s1 ->
  entry_reverse_lookup s1 = entry_reverse_lookup s /\
  forall c p, entitytainer_get_parent s1 c = Ok p <-> entitytainer_get_parent s c = Ok p.
Proof.
  intros H.
  assert (entry_reverse_lookup s1 = entry_reverse_lookup s) as E.
  { destruct H as [H | H].
    - eapply add_child_migrate_reverse_lookup, H.
    - eapply remove_child_migrate_reverse_lookup, H. }
  split; [exact E |]. intros c p. unfold entitytainer_get_parent. rewrite E. tauto.
Qed.

Lemma migration_keeps_reverse_lookup_example :
  exists s list s1,
    run_example [AddEntity 5; AddChild 5 100; AddChild 5 101; AddChild 5 102] = Ok s /\
    bucket_list_at s 0 = Ok list /\
    add_child_migrate s 5 0 list 4 = Ok (s1, 1, 0) /\
    entry_reverse_lookup s1 = entry_reverse_lookup s /\
    forall c p, entitytainer_get_parent s1 c = Ok p <-> entitytainer_get_parent s c = Ok p.
Proof.
  do 3 eexists. split; [vm_compute; reflexivity |].
  split; [vm_compute; reflexivity |].
  match goal with
  | |- add_child_migrate _ _ _ ?l _ = _ /\ _ =>
      split; [vm_compute; reflexivity |];
      apply (migration_keeps_reverse_lookup _ _ 5 0 1 4 0 l l)
  end.
  left. vm_compute. reflexivity.
Defined.

(** [add_child], migrating or not, writes the reverse lookup at [child]
    only. *)
Lemma add_child_reverse_lookup (s s' : TheEntitytainer) (parent child : Z) :
  entitytainer_add_child s parent child = Ok s' ->
  entitytainer_get_parent s' child = Ok parent /\
  forall c, c <> child -> entitytainer_get_parent s' c = entitytainer_get_parent s c.
Proof.
  unfold entitytainer_add_child. intros H.
  bind_inv H. bind_inv H. bind_inv H. bind_inv H.
  bind_inv H as [[s1 t1] off1] Hmig.
  assert (entry_reverse_lookup s1 = entry_reverse_lookup s) as E.
  { case_bool_decide.
    - eapply add_child_migrate_reverse_lookup, Hmig.
    - inversion Hmig; subst. reflexivity. }
  unfold add_child_insert in H. bind_inv H. bind_inv H. bind_inv H. bind_inv H.
  bind_inv H as reverse' Hrev. inversion H; subst s'. clear H.
  unfold entitytainer_get_parent. simpl.
  rewrite E in Hrev. split.
  - eapply arr_get_set_eq, Hrev.
  - intros c Hc. eapply arr_get_set_ne; eauto.
Qed.

(** [remove_child], migrating or not, writes the reverse lookup at one
    index only. *)
Lemma remove_child_reverse_lookup (s s' : TheEntitytainer) (parent child : Z) :
  entitytainer_remove_child s parent child = Ok s' ->
  exists child',
    entitytainer_get_parent s' child' = Ok 0 /\
    forall c, c <> child' -> entitytainer_get_parent s' c = entitytainer_get_parent s c.
Proof.
  unfold entitytainer_remove_child. intros H.
  bind_inv H. bind_inv H. bind_inv H. bind_inv H. bind_inv H.
  destruct (remove_child_scan _ _ _ _ _) as [i child'].
  bind_inv H. bind_inv H. bind_inv H. bind_inv H.
  bind_inv H as s1 Hs1.
  assert (entry_reverse_lookup s1 = entry_reverse_lookup s) as E.
  { case_bool_decide.
    - bind_inv Hs1. case_bool_decide.
      + eapply remove_child_migrate_reverse_lookup, Hs1.
      + inversion Hs1; subst. reflexivity.
    - inversion Hs1; subst. reflexivity. }
  bind_inv H as reverse' Hrev. inversion H; subst s'. clear H. exists child'.
  unfold entitytainer_get_parent. simpl. rewrite E in Hrev. split.
  - eapply arr_get_set_eq, Hrev.
  - intros c Hc. eapply arr_get_set_ne; eauto.
Qed.

(** ** The sizing calculator *)

Lemma sum_Z_nonneg (l : list Z) : Forall (Z.le 0) l -> 0 <= sum_Z l.
Proof. induction 1 as [| x l Hx _ IH]; simpl; lia. Qed.

Lemma slab_bytes_nonneg (bucket_sizes bucket_list_sizes : list Z) :
  Forall (Z.le 0) bucket_sizes -> Forall (Z.le 0) bucket_list_sizes ->
  Forall (Z.le 0) (slab_bytes bucket_sizes bucket_list_sizes).
Proof.
  intros Hb. revert bucket_list_sizes.
  induction Hb as [| b bs Hb _ IH]; intros [| n ns] Hn; simpl; try constructor.
  - inversion Hn; subst. unfold sizeof_TheEntitytainerEntity. nia.
  - inversion Hn; subst. apply IH. assumption.
Qed.

Lemma slab_bytes_lookup (bucket_sizes bucket_list_sizes : list Z) (i : nat) (b n : Z) :
  bucket_sizes !! i = Some b -> bucket_list_sizes !! i = Some n ->
  slab_bytes bucket_sizes bucket_list_sizes !! i
  = Some (n * b * sizeof_TheEntitytainerEntity).
Proof.
  intros Hb Hn. unfold slab_bytes. rewrite lookup_zip_with, Hb. simpl. rewrite Hn.
  reflexivity.
Qed.

(** As long as the running total stays in the range of [int], the loop adds
    the exact size of each slab. *)
Lemma needed_size_loop_exact (fuel : nat) (i : nat) (bucket_sizes bucket_list_sizes : list Z)
    (size_needed : Z) :
  (i + fuel <= length bucket_sizes)%nat ->
  (i + fuel <= length bucket_list_sizes)%nat ->
  Forall (Z.le 0) bucket_sizes -> Forall (Z.le 0) bucket_list_sizes ->
  0 <= size_needed ->
  size_needed + sum_Z (take fuel (drop i (slab_bytes bucket_sizes bucket_list_sizes)))
    <= INT_MAX ->
  needed_size_loop fuel (Z.of_nat i) bucket_sizes bucket_list_sizes size_needed
  = Ok (size_needed
        + sum_Z (take fuel (drop i (slab_bytes bucket_sizes bucket_list_sizes)))).
Proof.
  intros Hlb Hln Hb Hn. revert i size_needed Hlb Hln.
  induction fuel as [| fuel IH]; intros i acc Hlb Hln Hacc Hmax; simpl.
  - f_equal. lia.
  - destruct (lookup_lt_is_Some_2 bucket_sizes i ltac:(lia)) as [b Eb].
    destruct (lookup_lt_is_Some_2 bucket_list_sizes i ltac:(lia)) as [n En].
    assert (0 <= b) as Hb0 by (eapply (proj1 (Forall_lookup _ _) Hb); eassumption).
    assert (0 <= n) as Hn0 by (eapply (proj1 (Forall_lookup _ _) Hn); eassumption).
    pose proof (slab_bytes_lookup _ _ _ _ _ Eb En) as Es.
    rewrite (drop_S _ _ _ Es) in Hmax |- *. simpl in Hmax |- *.
    assert (0 <= sum_Z (take fuel (drop (S i) (slab_bytes bucket_sizes bucket_list_sizes))))
      as Hrest.
    { apply sum_Z_nonneg, Forall_take, Forall_drop, slab_bytes_nonneg; assumption. }
    unfold sizeof_TheEntitytainerEntity in *.
    assert (0 <= n * b) as Hnb by nia.
    replace (arr_get bucket_list_sizes (Z.of_nat i)) with (Ok (A:=Z) n)
      by (symmetry; apply arr_get_Ok; rewrite Nat2Z.id; split; [lia | assumption]).
    replace (arr_get bucket_sizes (Z.of_nat i)) with (Ok (A:=Z) b)
      by (symmetry; apply arr_get_Ok; rewrite Nat2Z.id; split; [lia | assumption]).
    simpl.
    rewrite (sint32_small (n * b)) by (unfold INT_MIN, INT_MAX in *; lia).
    rewrite (sint32_small (acc + n * b * 2)) by (unfold INT_MIN, INT_MAX in *; lia).
    replace (Z.of_nat i + 1) with (Z.of_nat (S i)) by lia.
    rewrite IH by (unfold INT_MAX in *; lia). f_equal. lia.
Qed.

(** C7, amended.  For non-negative arguments and arrays of at least [T]
    elements, if the exact sum (header, two lookup arrays, [T] list records
    and the [T] slabs) is at most [INT_MAX], [needed_size] returns exactly
    that sum. *)
Theorem needed_size_exact (ts : TargetSizes) (num_entries : Z)
    (bucket_sizes bucket_list_sizes : list Z) (num_bucket_lists : Z) :
  0 <= sizeof_TheEntitytainer ts ->
  0 <= sizeof_TheEntitytainerBucketList ts ->
  0 <= num_entries ->
  0 <= num_bucket_lists <= Z.of_nat (length bucket_sizes) ->
  num_bucket_lists <= Z.of_nat (length bucket_list_sizes) ->
  Forall (Z.le 0) bucket_sizes ->
  Forall (Z.le 0) bucket_list_sizes ->
  spec_needed_size ts num_entries bucket_sizes bucket_list_sizes num_bucket_lists
    <= INT_MAX ->
  entitytainer_needed_size ts num_entries bucket_sizes bucket_list_sizes num_bucket_lists
  = Ok (spec_needed_size ts num_entries bucket_sizes bucket_list_sizes num_bucket_lists).
Proof.
  intros Hh Hr He HT HT' Hb Hn Hmax.
  unfold entitytainer_needed_size, spec_needed_size in *.
  assert (0 <= sum_Z (take (Z.to_nat num_bucket_lists)
                        (slab_bytes bucket_sizes bucket_list_sizes))) as Hsum.
  { apply sum_Z_nonneg, Forall_take, slab_bytes_nonneg; assumption. }
  unfold sizeof_TheEntitytainerEntry, sizeof_TheEntitytainerEntity in *.
  assert (0 <= num_bucket_lists * sizeof_TheEntitytainerBucketList ts) as Hrec by nia.
  rewrite (sint32_small (sizeof_TheEntitytainer ts))
    by (unfold INT_MIN, INT_MAX in *; lia).
  rewrite (sint32_small (sizeof_TheEntitytainer ts + num_entries * 2))
    by (unfold INT_MIN, INT_MAX in *; lia).
  rewrite (sint32_small (sizeof_TheEntitytainer ts + num_entries * 2 + num_entries * 2))
    by (unfold INT_MIN, INT_MAX in *; lia).
  rewrite (sint32_small (sizeof_TheEntitytainer ts + num_entries * 2 + num_entries * 2
                         + num_bucket_lists * sizeof_TheEntitytainerBucketList ts))
    by (unfold INT_MIN, INT_MAX in *; lia).
  change 0 with (Z.of_nat 0) at 1.
  rewrite needed_size_loop_exact by (rewrite ?drop_0; first [assumption | lia]).
  rewrite drop_0. reflexivity.
Qed.

Lemma needed_size_exact_example :
  entitytainer_needed_size lp64 1024 example_sizes example_counts 3 = Ok 5328.
Proof.
  apply (needed_size_exact lp64 1024 example_sizes example_counts 3).
  - simpl. lia.
  - simpl. lia.
  - lia.
  - simpl. lia.
  - simpl. lia.
  - repeat constructor; lia.
  - repeat constructor; lia.
  - vm_compute. discriminate.
Defined.

(** C7, as stated, fails: with the example sizes and 2^30 entries the exact
    sum is 2^32 + 1232, and the function returns 1232. *)
Lemma needed_size_wraps :
  entitytainer_needed_size lp64 (2 ^ 30) example_sizes example_counts 3 = Ok 1232 /\
  spec_needed_size lp64 (2 ^ 30) example_sizes example_counts 3 = 2 ^ 32 + 1232.
Proof. split; vm_compute; reflexivity. Qed.

(** ** The reallocation policy *)

Lemma binary_round_aux_sign (prec emax : Z) (sx : bool) (mx ex : Z) (lx : location) :
  match binary_round_aux prec emax sx mx ex lx with
  | S754_finite sign _ _ => sign = sx
  | _ => True
  end.
Proof.
  unfold binary_round_aux.
  destruct (shr_fexp prec emax mx ex lx) as [mrs' e'].
  destruct (shr_fexp prec emax _ e' loc_Exact) as [mrs'' e''].
  destruct (shr_m mrs''); try exact I.
  destruct (e'' <=? emax - prec)%Z; [reflexivity | exact I].
Qed.

Lemma float_of_int_nonneg (n : Z) : 0 <= n -> nonneg_sign (float_of_int n).
Proof.
  intros Hn. unfold float_of_int, binary_normalize. destruct n as [| m | m]; [exact I | | lia].
  unfold binary_round. destruct (shl_align _ _ _) as [mz ez].
  pose proof (binary_round_aux_sign 24 128 false (Z.pos mz) ez loc_Exact) as H.
  unfold nonneg_sign. destruct (binary_round_aux _ _ _ _ _ _); auto.
Qed.

Lemma float_ge_zero_nonneg (x : float) : float_ge_zero x = true -> nonneg_sign x.
Proof. destruct x as [s | s | | [|] m e]; simpl; try tauto. discriminate. Qed.

Lemma float_mul_nonneg (x y : float) :
  nonneg_sign x -> nonneg_sign y -> nonneg_sign (float_mul x y).
Proof.
  destruct x as [sx | sx | | sx mx ex], y as [sy | sy | | sy my ey]; simpl;
    intros Hx Hy; try exact I.
  subst. pose proof (binary_round_aux_sign 24 128 (xorb false false)
                       (Z.pos (mx * my)) (ex + ey) loc_Exact) as H.
  destruct (binary_round_aux _ _ _ _ _ _); auto.
Qed.

(** Dropping the fraction of a float that is not negative takes its floor. *)
Lemma int_of_float_floor (x : float) : nonneg_sign x -> int_of_float x = float_floor x.
Proof.
  destruct x as [s | s | | s m e]; simpl; try reflexivity.
  intros ->. reflexivity.
Qed.

(** For a bucket list with a total that is not negative, the threshold the
    loop computes is the threshold of the specification. *)
Lemma realloc_threshold_spec (percent_free : float) (n : Z)
    (list : TheEntitytainerBucketList) :
  0 <= total_buckets list ->
  realloc_threshold percent_free n list = spec_threshold percent_free n list.
Proof.
  intros Htotal. unfold realloc_threshold, spec_threshold.
  destruct (float_ge_zero percent_free) eqn:E; [| reflexivity].
  apply int_of_float_floor, float_mul_nonneg.
  - apply float_of_int_nonneg, Htotal.
  - apply float_ge_zero_nonneg, E.
Qed.

(** The threshold does not depend on the value [num_free_buckets] carries
    from one iteration to the next. *)
Lemma realloc_threshold_carried (percent_free : float) (n th : Z)
    (list list' : TheEntitytainerBucketList) :
  realloc_threshold percent_free n list = Ok th ->
  realloc_threshold percent_free th list' = realloc_threshold percent_free n list'.
Proof.
  unfold realloc_threshold. destruct (float_ge_zero percent_free); [reflexivity |].
  intros [= ->]. reflexivity.
Qed.

Section NeedsRealloc.

Variable s : TheEntitytainer.
Variable percent_free : float.

Lemma needs_realloc_loop_iff (fuel : nat) :
  forall i n,
  (forall j, i <= j < i + Z.of_nat fuel ->
     exists list th, list_in_range s j list /\
                     realloc_threshold percent_free n list = Ok th) ->
  exists b,
    needs_realloc_loop fuel i s percent_free n = Ok b /\
    (b = true <->
     exists j list th,
       i <= j < i + Z.of_nat fuel /\ bucket_list_at s j = Ok list /\
       realloc_threshold percent_free n list = Ok th /\
       total_buckets list - used_buckets list <= th).
Proof.
  induction fuel as [| fuel IH]; intros i n Hall.
  - exists false. split; [reflexivity |]. split; [discriminate |].
    intros (j & _ & _ & Hj & _). lia.
  - destruct (Hall i ltac:(lia)) as (list & th & [Hlist Hrange] & Hth).
    simpl. rewrite Hlist. simpl. rewrite Hth. simpl.
    rewrite sint32_small by assumption.
    case_bool_decide as Hcmp.
    + exists true. split; [reflexivity |]. split; [| reflexivity].
      intros _. exists i, list, th. repeat split; try assumption; lia.
    + destruct (IH (i + 1) th) as (b & Hb & Hiff).
      { intros j Hj. destruct (Hall j ltac:(lia)) as (l & t & Hl & Ht).
        exists l, t. split; [assumption |].
        rewrite (realloc_threshold_carried _ _ _ _ _ Hth). assumption. }
      exists b. split; [assumption |]. rewrite Hiff. split.
      * intros (j & l & t & Hj & Hl & Ht & Hle). exists j, l, t.
        rewrite (realloc_threshold_carried _ _ _ _ _ Hth) in Ht.
        repeat split; try assumption; lia.
      * intros (j & l & t & Hj & Hl & Ht & Hle).
        destruct (decide (j = i)) as [-> | Hne].
        { rewrite Hlist in Hl. inversion Hl; subst l. rewrite Hth in Ht.
          inversion Ht; subst t. contradiction. }
        exists j, l, t. rewrite (realloc_threshold_carried _ _ _ _ _ Hth).
        repeat split; try assumption; lia.
Qed.

End NeedsRealloc.

(** The loop on its own, over the bucket lists that the field
    [num_bucket_lists] counts.  Take a container whose [num_bucket_lists]
    bucket lists are there, each with a total that is not negative, a
    difference [total - used] in the range of [int] and a defined
    threshold: the floor of [total_buckets * percent_free] when
    [percent_free >= 0], and [abs_free] otherwise.  Then [needs_realloc]
    returns a boolean, and it is true exactly if one of these bucket lists
    has [total_buckets - used_buckets] at most its threshold. *)
Theorem needs_realloc_iff (s : TheEntitytainer) (percent_free : float) (abs_free : Z) :
  (forall i, 0 <= i < num_bucket_lists s ->
     exists list th,
       bucket_list_at s i = Ok list /\
       0 <= total_buckets list /\
       INT_MIN <= total_buckets list - used_buckets list <= INT_MAX /\
       spec_threshold percent_free abs_free list = Ok th) ->
  exists b,
    entitytainer_needs_realloc s percent_free abs_free = Ok b /\
    (b = true <->
     exists i list th,
       0 <= i < num_bucket_lists s /\
       bucket_list_at s i = Ok list /\
       spec_threshold percent_free abs_free list = Ok th /\
       total_buckets list - used_buckets list <= th).
Proof.
  intros Hall. unfold entitytainer_needs_realloc.
  destruct (needs_realloc_loop_iff s percent_free (Z.to_nat (num_bucket_lists s)) 0 abs_free)
    as (b & Hb & Hiff).
  { intros j Hj. destruct (Hall j ltac:(lia)) as (list & th & Hlist & Htotal & Hrange & Hth).
    exists list, th. split; [split; assumption |].
    rewrite realloc_threshold_spec; assumption. }
  exists b. split; [assumption |]. rewrite Hiff. split.
  - intros (j & l & t & Hj & Hl & Ht & Hle). exists j, l, t.
    destruct (Hall j ltac:(lia)) as (list & th & Hlist & Htotal & _ & _).
    rewrite Hl in Hlist. inversion Hlist; subst list.
    rewrite realloc_threshold_spec in Ht by assumption.
    repeat split; try assumption; lia.
  - intros (j & l & t & Hj & Hl & Ht & Hle). exists j, l, t.
    destruct (Hall j ltac:(lia)) as (list & th & Hlist & Htotal & _ & _).
    rewrite Hl in Hlist. inversion Hlist; subst list.
    rewrite realloc_threshold_spec by assumption.
    repeat split; try assumption; lia.
Qed.

(** The example container with the field set to 3 by hand, asked for
    three quarters of free buckets: the first list has 3 of 4 buckets free
    and the threshold is 3. *)
Lemma needs_realloc_example :
  exists s0,
    example_container = Ok s0 /\
    exists b,
      entitytainer_needs_realloc (set_num_bucket_lists s0 3) three_quarters 0 = Ok b /\
      (b = true <->
       exists i list th,
         0 <= i < num_bucket_lists (set_num_bucket_lists s0 3) /\
         bucket_list_at (set_num_bucket_lists s0 3) i = Ok list /\
         spec_threshold three_quarters 0 list = Ok th /\
         total_buckets list - used_buckets list <= th).
Proof.
  eexists. split; [vm_compute; reflexivity |].
  apply (needs_realloc_iff (set_num_bucket_lists _ 3) three_quarters 0).
  intros i Hi. simpl in Hi.
  assert (i = 0 \/ i = 1 \/ i = 2) as [-> | [-> | ->]] by lia;
    do 2 eexists;
    (split; [vm_compute; reflexivity |]);
    (split; [simpl; lia |]);
    (split; [simpl; unfold INT_MIN, INT_MAX; lia |]);
    vm_compute; reflexivity.
Defined.

(** With the field set by hand the answer is [true], and it is [false]
    when no bucket has to be free; with the field as [entitytainer_create]
    leaves it the answer is [false]. *)
Example needs_realloc_values :
  exists s0,
    example_container = Ok s0 /\
    entitytainer_needs_realloc (set_num_bucket_lists s0 3) three_quarters 0 = Ok true /\
    entitytainer_needs_realloc (set_num_bucket_lists s0 3) (float_of_int (-1)) 0 = Ok false /\
    entitytainer_needs_realloc s0 three_quarters 0 = Ok false.
Proof.
  eexists. split; [vm_compute; reflexivity |].
  split; [vm_compute; reflexivity |].
  split; vm_compute; reflexivity.
Qed.

(** [entitytainer_create] leaves the field [num_bucket_lists] at 0 and no
    other function stores it, so the loop of [needs_realloc] has no bucket
    list to look at. *)
Lemma needs_realloc_uncounted (s : TheEntitytainer) (percent_free : float)
    (num_free_buckets : Z) :
  num_bucket_lists s <= 0 ->
  entitytainer_needs_realloc s percent_free num_free_buckets = Ok false.
Proof.
  intros H. unfold entitytainer_needs_realloc.
  replace (Z.to_nat (num_bucket_lists s)) with 0%nat by lia. reflexivity.
Qed.

(** C8.  The code does not answer as the claim says.  In the example
    container, after three entities were added, the first bucket list has
    all its 4 buckets in use: no bucket is free, which is at most the
    threshold 3 = floor (4 * 0.75), and at most the absolute count 0.  A
    tier is short of free buckets, and yet [needs_realloc] returns false
    for both ways of asking, as the field [num_bucket_lists], which bounds
    its loop, is 0. *)
Theorem needs_realloc_misses_full_tier :
  exists s list,
    run_example [AddEntity 1; AddEntity 2; AddEntity 3] = Ok s /\
    bucket_list_at s 0 = Ok list /\
    total_buckets list = 4 /\
    used_buckets list = 4 /\
    spec_threshold three_quarters 0 list = Ok 3 /\
    total_buckets list - used_buckets list <= 3 /\
    spec_threshold (float_of_int (-1)) 0 list = Ok 0 /\
    total_buckets list - used_buckets list <= 0 /\
    num_bucket_lists s = 0 /\
    entitytainer_needs_realloc s three_quarters 0 = Ok false /\
    entitytainer_needs_realloc s (float_of_int (-1)) 0 = Ok false.
Proof.
  do 2 eexists.
  split; [vm_compute; reflexivity |].
  split; [vm_compute; reflexivity |].
  split; [reflexivity |]. split; [reflexivity |].
  split; [vm_compute; reflexivity |]. split; [simpl; lia |].
  split; [vm_compute; reflexivity |]. split; [simpl; lia |].
  split; [reflexivity |].
  split; apply needs_realloc_uncounted; simpl; lia.
Qed.

(** ** Removing an entity that owns nothing *)

(** C9.  If both the lookup word and the reverse lookup of an entity are 0,
    [remove_entity] returns and the container is the one it was given:
    lookup array, reverse lookup array and every bucket list, with its
    counters, its free list and its slab. *)
Theorem remove_entity_absent (s : TheEntitytainer) (entity : Z) :
  arr_get (entry_lookup s) entity = Ok 0 ->
  arr_get (entry_reverse_lookup s) entity = Ok 0 ->
  entitytainer_remove_entity s entity = Ok s.
Proof.
  intros HL HR. unfold entitytainer_remove_entity. rewrite HL, HR. reflexivity.
Qed.

Lemma remove_entity_absent_example :
  exists s, example_container = Ok s /\ entitytainer_remove_entity s 3 = Ok s.
Proof.
  eexists. split; [vm_compute; reflexivity |].
  apply remove_entity_absent; vm_compute; reflexivity.
Defined.

(** ** The count of a new entity *)

(** [add_entity] stores 0 in slot 0 of the bucket it drew; when the index
    of that bucket is between 1 and 63 the lookup word decodes to it and
    [num_children] returns 0. *)
Lemma add_entity_num_children (s s' : TheEntitytainer) (entity i : Z)
    (list list1 : TheEntitytainerBucketList) :
  bucket_list_at s 0 = Ok list ->
  take_bucket list = Ok (i, list1) ->
  0 < i < 64 ->
  entitytainer_add_entity s entity = Ok s' ->
  entitytainer_num_children s' entity = Ok 0.
Proof.
  intros Hlist Htake Hi H. unfold entitytainer_add_entity in H.
  bind_inv H. bind_inv H. rewrite Hlist in H. simpl in H. rewrite Htake in H. simpl in H.
  bind_inv H. bind_inv H. bind_inv H. rename x3 into lookup'.
  bind_inv H. rename x3 into buckets'. inversion H; subst s'. clear H.
  unfold entitytainer_num_children. simpl.
  rewrite (arr_get_set_eq _ _ _ _ Hx3). simpl.
  assert (uint16 i = i) as Eu by (unfold uint16; apply Z.mod_small; lia).
  rewrite Eu. rewrite bool_decide_true by lia. simpl.
  assert (lookup_bucket_list_index i = 0) as Et.
  { unfold lookup_bucket_list_index, ENTITYTAINER_BucketListOffset,
      sizeof_TheEntitytainerEntry. simpl. rewrite Z.shiftr_div_pow2 by lia.
    apply Z.div_small. lia. }
  rewrite Et.
  unfold bucket_list_at at 1. simpl.
  apply bucket_list_at_Ok in Hlist. destruct Hlist as [_ Hlist]. simpl in Hlist.
  rewrite list_lookup_insert_eq by (eapply lookup_lt_Some, Hlist). simpl.
  rewrite lookup_bucket_index_mod, Z.mod_small by lia.
  unfold bucket_offset_of in *. simpl in *.
  eapply arr_get_set_eq, Hx4.
Qed.

(** C10.  Two runs in which [num_children(e)] right after a successful
    [add_entity(e)] is not 0.  In the container with 128 small buckets,
    entity 65 receives bucket 65, whose lookup word decodes to bucket 1, the
    bucket of entity 1 with its one child.  In the example container, after
    scenario S4 the free list starts at bucket 0; entity 8 receives it, its
    lookup word is 0 and [num_children(8)] fails its assertion. *)
Theorem num_children_after_add_entity :
  (exists s s',
     (s0 ← wide_container;
      run_calls s0 (AddEntity 1 :: AddChild 1 500 :: map AddEntity (seqZ 2 63))) = Ok s /\
     entitytainer_add_entity s 65 = Ok s' /\
     arr_get (entry_lookup s') 65 = Ok 65 /\
     entitytainer_num_children s' 65 = Ok 1) /\
  (exists s s',
     run_example [AddEntity 1; AddEntity 2; RemoveEntity 1; AddEntity 7] = Ok s /\
     entitytainer_add_entity s 8 = Ok s' /\
     arr_get (entry_lookup s') 8 = Ok 0 /\
     entitytainer_num_children s' 8 = AssertFailed).
Proof.
  split; do 2 eexists.
  - split; [vm_compute; reflexivity |].
    split; [vm_compute; reflexivity |].
    split; vm_compute; reflexivity.
  - split; [vm_compute; reflexivity |].
    split; [vm_compute; reflexivity |].
    split; vm_compute; reflexivity.
Qed.

(** * Further properties of the code *)

(** ** Lookup words: encoding and decoding *)

Lemma land_shiftl_low (a b n : Z) :
  0 <= n -> 0 <= b < 2 ^ n -> Z.land (Z.shiftl a n) b = 0.
Proof.
  intros Hn Hb. apply Z.bits_inj'. intros k Hk.
  rewrite Z.land_spec, Z.bits_0.
  destruct (Z.lt_ge_cases k n) as [Hlt | Hge].
  - rewrite Z.shiftl_spec_low by assumption. reflexivity.
  - destruct (Z.eq_dec b 0) as [-> | Hb0]; [rewrite Z.bits_0; apply andb_false_r |].
    rewrite (Z.bits_above_log2 b k); [apply andb_false_r | lia |].
    apply Z.lt_le_trans with n; [| assumption].
    apply Z.log2_lt_pow2; lia.
Qed.

(** For a bucket list index up to 3 and a bucket index below 2^14 the
    lookup word is the one followed by the other. *)
Lemma lookup_encode_value (t i : Z) :
  0 <= t <= 3 -> 0 <= i < 16384 -> lookup_encode t i = t * 16384 + i.
Proof.
  intros Ht Hi. unfold lookup_encode, ENTITYTAINER_BucketListOffset,
    sizeof_TheEntitytainerEntry.
  change (2 * 8 - 2) with 14.
  assert (Z.shiftl t 14 = t * 16384) as Es by (rewrite Z.shiftl_mul_pow2 by lia; reflexivity).
  pose proof (land_shiftl_low t i 14 ltac:(lia) ltac:(simpl; lia)) as Hland.
  rewrite Es in Hland |- *.
  rewrite (sint32_small (t * 16384)) by (unfold INT_MIN, INT_MAX; lia).
  unfold uint16. rewrite (Z.mod_small (t * 16384)) by lia.
  rewrite (Z.mod_small i) by lia.
  rewrite <- Z.lxor_lor by assumption.
  rewrite <- Z.add_nocarry_lxor by assumption.
  apply Z.mod_small. lia.
Qed.

(** Round trip of the lookup word.  A bucket list index up to 3 and a
    bucket index below 2^14 are written into one lookup word; reading it
    back returns the bucket list index, and the bucket index modulo 64: the
    bucket index itself when it is below 64.  The word is 0 only for bucket 0
    of the first list. *)
Theorem lookup_encode_decode (t i : Z) :
  0 <= t <= 3 -> 0 <= i < 16384 ->
  lookup_bucket_list_index (lookup_encode t i) = t /\
  lookup_bucket_index (lookup_encode t i) = i mod 64 /\
  (i < 64 -> lookup_bucket_index (lookup_encode t i) = i) /\
  (lookup_encode t i = 0 <-> t = 0 /\ i = 0).
Proof.
  intros Ht Hi. rewrite lookup_encode_value by assumption.
  assert (lookup_bucket_index (t * 16384 + i) = i mod 64) as Eidx.
  { rewrite lookup_bucket_index_mod.
    replace (t * 16384 + i) with (i + (t * 256) * 64) by lia.
    apply Z.mod_add. lia. }
  split; [| split; [exact Eidx | split]].
  - unfold lookup_bucket_list_index, ENTITYTAINER_BucketListOffset,
      sizeof_TheEntitytainerEntry. change (2 * 8 - 2) with 14.
    rewrite Z.shiftr_div_pow2 by lia. change (2 ^ 14) with 16384.
    rewrite Z.add_comm, Z.div_add by lia. rewrite Z.div_small by lia. lia.
  - intros Hsmall. rewrite Eidx. apply Z.mod_small. lia.
  - lia.
Qed.

Lemma lookup_encode_decode_example :
  lookup_bucket_list_index (lookup_encode 2 37) = 2 /\
  lookup_bucket_index (lookup_encode 2 37) = 37 mod 64 /\
  (37 < 64 -> lookup_bucket_index (lookup_encode 2 37) = 37) /\
  (lookup_encode 2 37 = 0 <-> 2 = 0 /\ 37 = 0).
Proof. apply (lookup_encode_decode 2 37); lia. Defined.

(** ** Reading the children *)

Lemma arr_read_n_lookup (a vs : list Z) (off n : Z) :
  arr_read_n a off n = Ok vs ->
  0 <= off /\ Z.of_nat (length vs) = n /\
  forall j : nat, (j < length vs)%nat -> vs !! j = a !! (Z.to_nat off + j)%nat.
Proof.
  intros H. pose proof (arr_read_n_length _ _ _ _ H) as Hlen.
  unfold arr_read_n in H. case_bool_decide as Hb; [| discriminate].
  inversion H; subst vs. split; [lia |]. split; [assumption |].
  intros j Hj. rewrite lookup_take_lt by (rewrite length_take in Hj; lia).
  apply lookup_drop.
Qed.

(** What a successful [get_children] has read. *)
Lemma get_children_list_Ok (s : TheEntitytainer) (parent : Z) (cs : list Z) :
  get_children_list s parent = Ok cs ->
  exists lookup list,
    arr_get (entry_lookup s) parent = Ok lookup /\ lookup <> 0 /\
    bucket_list_at s (lookup_bucket_list_index lookup) = Ok list /\
    arr_get (buckets list) (bucket_offset_of list (lookup_bucket_index lookup))
      = Ok (Z.of_nat (length cs)) /\
    arr_read_n (buckets list) (bucket_offset_of list (lookup_bucket_index lookup) + 1)
      (Z.of_nat (length cs)) = Ok cs.
Proof.
  unfold get_children_list, entitytainer_get_children. intros H.
  bind_inv H as v Hv. bind_inv Hv as lookup HL. bind_inv Hv as u Hne.
  apply assert_Ok, bool_decide_eq_true in Hne.
  bind_inv Hv as list Hlist. bind_inv Hv as n Hn. inversion Hv; subst v. clear Hv.
  unfold view_children in H. simpl in H. rewrite Hlist in H. simpl in H.
  pose proof (arr_read_n_length _ _ _ _ H) as Hlen. subst n.
  exists lookup, list. auto.
Qed.

Lemma get_child_index_loop_spec (bucket cs : list Z) (off child : Z) (fuel : nat) :
  forall i : nat,
  (i + fuel = length cs)%nat ->
  0 <= off + 1 ->
  (forall j : nat, (j < length cs)%nat -> cs !! j = bucket !! (Z.to_nat (off + 1) + j)%nat) ->
  (forall j : nat, (j < i)%nat -> cs !! j <> Some child) ->
  exists k,
    get_child_index_loop fuel (Z.of_nat i) bucket off (Z.of_nat (length cs)) child = Ok k /\
    ((k = -1 /\ child ∉ cs) \/
     (0 <= k /\ cs !! Z.to_nat k = Some child /\
      forall j : nat, (j < Z.to_nat k)%nat -> cs !! j <> Some child)).
Proof.
  induction fuel as [| fuel IH]; intros i Hi Hoff Hcs Hbefore.
  - exists (-1). split; [reflexivity |]. left. split; [reflexivity |].
    intros [j Hj]%list_elem_of_lookup.
    apply (Hbefore j); [| assumption]. apply lookup_lt_Some in Hj. lia.
  - destruct (lookup_lt_is_Some_2 cs i ltac:(lia)) as [c Hc].
    assert (arr_get bucket (off + (1 + Z.of_nat i)) = Ok c) as Hget.
    { apply arr_get_Ok. split; [lia |].
      replace (Z.to_nat (off + (1 + Z.of_nat i))) with (Z.to_nat (off + 1) + i)%nat by lia.
      rewrite <- Hcs by lia. assumption. }
    simpl. rewrite Hget. simpl. case_bool_decide as Hfound.
    + subst c. exists (Z.of_nat i). split; [reflexivity |]. right.
      rewrite Nat2Z.id. split; [lia | split; assumption].
    + replace (Z.of_nat i + 1) with (Z.of_nat (S i)) by lia.
      apply IH; [lia | assumption | assumption |].
      intros j Hj. destruct (decide (j = i)) as [-> | Hne].
      * rewrite Hc. intros [= ->]. contradiction.
      * apply Hbefore. lia.
Qed.

(** [get_child_index] returns the position of the first occurrence of the
    child among the children [get_children] shows, counted from 0, and -1
    when the child is not among them. *)
Theorem get_child_index_first_occurrence (s : TheEntitytainer) (parent child : Z)
    (cs : list Z) :
  get_children_list s parent = Ok cs ->
  exists k,
    entitytainer_get_child_index s parent child = Ok k /\
    ((k = -1 /\ child ∉ cs) \/
     (0 <= k /\ cs !! Z.to_nat k = Some child /\
      forall j : nat, (j < Z.to_nat k)%nat -> cs !! j <> Some child)).
Proof.
  intros (lookup & list & HL & Hne & Hlist & Hn & Hread)%get_children_list_Ok.
  unfold entitytainer_get_child_index. rewrite HL. cbn [mbind result_bind].
  rewrite (bool_decide_true (lookup <> 0)) by assumption.
  cbn [mbind result_bind ENTITYTAINER_assert].
  rewrite Hlist. cbn [mbind result_bind]. rewrite Hn. cbn [mbind result_bind].
  rewrite Nat2Z.id.
  apply arr_read_n_lookup in Hread. destruct Hread as (Hoff & _ & Hcs).
  apply (get_child_index_loop_spec _ cs _ child (length cs) 0%nat);
    [lia | assumption | assumption | intros j Hj; lia].
Qed.

Lemma get_child_index_first_occurrence_example :
  exists s,
    run_example [AddEntity 9; AddChild 9 20; AddChild 9 21; AddChild 9 20] = Ok s /\
    get_children_list s 9 = Ok [20; 21; 20] /\
    exists k,
      entitytainer_get_child_index s 9 21 = Ok k /\
      ((k = -1 /\ 21 ∉ [20; 21; 20]) \/
       (0 <= k /\ [20; 21; 20] !! Z.to_nat k = Some 21 /\
        forall j : nat, (j < Z.to_nat k)%nat -> [20; 21; 20] !! j <> Some 21)).
Proof.
  eexists. conj_compute H0. conj_compute H1.
  apply (get_child_index_first_occurrence _ 9 21 [20; 21; 20] H1).
Defined.

(** ** What [add_child] does to the children *)

Lemma arr_read_n_Ok (a vs : list Z) (off n : Z) :
  arr_read_n a off n = Ok vs <->
  0 <= off /\ 0 <= n /\ off + n <= Z.of_nat (length a) /\
  vs = take (Z.to_nat n) (drop (Z.to_nat off) a).
Proof.
  unfold arr_read_n. case_bool_decide as Hb; split; intros H.
  - inversion H. intuition.
  - destruct H as (_ & _ & _ & ->). reflexivity.
  - discriminate.
  - exfalso. apply Hb. intuition.
Qed.

(** A block of [n + 1] entities is its first entity and the block of [n]
    entities after it. *)
Lemma arr_read_n_cons (a vs : list Z) (off n : Z) :
  0 <= n ->
  arr_read_n a off (n + 1) = Ok vs ->
  exists x xs, vs = x :: xs /\ arr_get a off = Ok x /\ arr_read_n a (off + 1) n = Ok xs.
Proof.
  intros Hn (Hoff & _ & Hlen & ->)%arr_read_n_Ok.
  destruct (lookup_lt_is_Some_2 a (Z.to_nat off) ltac:(lia)) as [x Hx].
  exists x, (take (Z.to_nat n) (drop (Z.to_nat (off + 1)) a)).
  split; [| split].
  - replace (Z.to_nat (n + 1)) with (S (Z.to_nat n)) by lia.
    rewrite (drop_S _ _ _ Hx). simpl.
    replace (Z.to_nat (off + 1)) with (S (Z.to_nat off)) by lia. reflexivity.
  - apply arr_get_Ok. auto.
  - apply arr_read_n_Ok. repeat split; lia.
Qed.

(** The two stores of the insertion: the count goes up by one and the child
    follows the children there were. *)
Lemma insert_child_slots (a a1 a2 cs : list Z) (off count child : Z) :
  arr_get a off = Ok count ->
  0 <= count <= 32766 ->
  arr_read_n a (off + 1) count = Ok cs ->
  arr_set a off (sint16 (count + 1)) = Ok a1 ->
  arr_set a1 (off + sint16 (count + 1)) child = Ok a2 ->
  length a2 = length a /\
  arr_get a2 off = Ok (count + 1) /\
  arr_read_n a2 (off + 1) (count + 1) = Ok (cs ++ [child]).
Proof.
  intros Hget Hcount Hcs Hset1 Hset2.
  rewrite sint16_small in Hset1, Hset2 by lia.
  pose proof Hset1 as [Hoff ->]%arr_set_Ok.
  pose proof Hset2 as [Hidx ->]%arr_set_Ok. rewrite length_insert in Hidx.
  apply arr_read_n_Ok in Hcs. destruct Hcs as (_ & _ & _ & ->).
  split; [rewrite !length_insert; reflexivity |]. split.
  - rewrite (arr_get_set_ne _ _ _ _ _ Hset2) by lia. eapply arr_get_set_eq, Hset1.
  - apply arr_read_n_Ok. rewrite !length_insert.
    split; [lia |]. split; [lia |]. split; [lia |].
    rewrite drop_insert_ge by lia. rewrite drop_insert_lt by lia.
    replace (Z.to_nat (off + (count + 1)) - Z.to_nat (off + 1))%nat
      with (Z.to_nat count) by lia.
    replace (Z.to_nat (count + 1)) with (S (Z.to_nat count)) by lia.
    rewrite (take_S_r _ _ child).
    + rewrite take_insert_ge by lia. reflexivity.
    + apply list_lookup_insert_eq. rewrite length_drop. lia.
Qed.

(** The insertion, seen through the bucket list it works on. *)
Lemma add_child_insert_children (s1 s' : TheEntitytainer) (parent child t1 off1 count : Z)
    (list1 : TheEntitytainerBucketList) (cs : list Z) :
  bucket_list_at s1 t1 = Ok list1 ->
  arr_get (buckets list1) off1 = Ok count ->
  0 <= count <= 32766 ->
  arr_read_n (buckets list1) (off1 + 1) count = Ok cs ->
  add_child_insert s1 parent child t1 off1 = Ok s' ->
  entry_lookup s' = entry_lookup s1 /\
  exists list',
    bucket_list_at s' t1 = Ok list' /\
    bucket_size list' = bucket_size list1 /\
    arr_get (buckets list') off1 = Ok (count + 1) /\
    arr_read_n (buckets list') (off1 + 1) (count + 1) = Ok (cs ++ [child]).
Proof.
  intros Hlist Hget Hcount Hcs H. unfold add_child_insert in H.
  rewrite Hlist in H. cbn [mbind result_bind] in H.
  rewrite Hget in H. cbn [mbind result_bind] in H.
  bind_inv H as a1 Hset1. bind_inv H as a2 Hset2. bind_inv H as reverse' Hrev.
  inversion H; subst s'. clear H.
  destruct (insert_child_slots _ _ _ _ _ _ _ Hget Hcount Hcs Hset1 Hset2)
    as (_ & Hget2 & Hread2).
  split; [reflexivity |].
  exists (set_buckets list1 a2). split; [| split; [reflexivity | split; assumption]].
  change (bucket_list_at (store_bucket_list s1 t1 (set_buckets list1 a2)) t1
          = Ok (set_buckets list1 a2)).
  eapply bucket_list_at_store_eq, Hlist.
Qed.

(** What [get_children] and [num_children] return, from what is stored. *)
Lemma get_children_list_from (s : TheEntitytainer) (parent lookup n : Z) (cs : list Z)
    (list : TheEntitytainerBucketList) :
  arr_get (entry_lookup s) parent = Ok lookup -> lookup <> 0 ->
  bucket_list_at s (lookup_bucket_list_index lookup) = Ok list ->
  arr_get (buckets list) (bucket_offset_of list (lookup_bucket_index lookup)) = Ok n ->
  arr_read_n (buckets list) (bucket_offset_of list (lookup_bucket_index lookup) + 1) n
    = Ok cs ->
  get_children_list s parent = Ok cs /\ entitytainer_num_children s parent = Ok n.
Proof.
  intros HL Hne Hlist Hn Hcs.
  unfold get_children_list, entitytainer_get_children, entitytainer_num_children,
    view_children.
  rewrite HL. cbn [mbind result_bind].
  rewrite (bool_decide_true (lookup <> 0)) by assumption.
  cbn [mbind result_bind ENTITYTAINER_assert].
  rewrite Hlist. cbn [mbind result_bind]. rewrite Hn. cbn [mbind result_bind].
  cbn [view_bucket_list view_offset view_num_children].
  rewrite Hlist. cbn [mbind result_bind]. auto.
Qed.

(** When the bucket is not full, [add_child] keeps the parent where it is
    and puts the child after the children there were: [get_children] shows
    the old children followed by the new one, and [num_children] is one
    more. *)
Theorem add_child_appends (s s' : TheEntitytainer) (parent child lookup : Z) (cs : list Z)
    (list : TheEntitytainerBucketList) :
  arr_get (entry_lookup s) parent = Ok lookup ->
  bucket_list_at s (lookup_bucket_list_index lookup) = Ok list ->
  get_children_list s parent = Ok cs ->
  Z.of_nat (length cs) + 1 <> bucket_size list ->
  Z.of_nat (length cs) <= 32766 ->
  entitytainer_add_child s parent child = Ok s' ->
  get_children_list s' parent = Ok (cs ++ [child]) /\
  entitytainer_num_children s' parent = Ok (Z.of_nat (length cs) + 1) /\
  arr_get (entry_lookup s') parent = Ok lookup.
Proof.
  intros HL Hlist Hcs Hroom Hmax H.
  apply get_children_list_Ok in Hcs.
  destruct Hcs as (lookup0 & list0 & HL0 & Hne & Hlist0 & Hn & Hread).
  rewrite HL in HL0. inversion HL0; subst lookup0. clear HL0.
  rewrite Hlist in Hlist0. inversion Hlist0; subst list0. clear Hlist0.
  rewrite (add_child_unfold _ _ _ _ _ _ HL Hne Hlist Hn) in H.
  rewrite bool_decide_false in H by assumption.
  destruct (add_child_insert_children _ _ _ _ _ _ _ _ _ Hlist Hn ltac:(lia) Hread H)
    as (EL & list' & Hlist' & Hsz & Hn' & Hread').
  assert (arr_get (entry_lookup s') parent = Ok lookup) as HL' by (rewrite EL; exact HL).
  assert (bucket_offset_of list' (lookup_bucket_index lookup)
          = bucket_offset_of list (lookup_bucket_index lookup)) as Eoff.
  { unfold bucket_offset_of. rewrite Hsz. reflexivity. }
  rewrite <- Eoff in Hn', Hread'.
  destruct (get_children_list_from _ _ _ _ _ _ HL' Hne Hlist' Hn' Hread') as [Hc Hnum].
  auto.
Qed.

Lemma add_child_appends_example :
  exists s list s',
    run_example [AddEntity 3; AddChild 3 10] = Ok s /\
    arr_get (entry_lookup s) 3 = Ok 1 /\
    bucket_list_at s (lookup_bucket_list_index 1) = Ok list /\
    get_children_list s 3 = Ok [10] /\
    entitytainer_add_child s 3 11 = Ok s' /\
    get_children_list s' 3 = Ok ([10] ++ [11]) /\
    entitytainer_num_children s' 3 = Ok (Z.of_nat (length [10]) + 1) /\
    arr_get (entry_lookup s') 3 = Ok 1.
Proof.
  do 3 eexists.
  conj_compute H0. conj_compute H1. conj_compute H2. conj_compute H3. conj_compute H4.
  apply (add_child_appends _ _ 3 11 1 [10] _ H1 H2 H3); [| simpl; lia | exact H4].
  vm_compute. discriminate.
Defined.

(** What a successful migration block has done. *)
Lemma add_child_migrate_Ok (s s1 : TheEntitytainer) (parent t t1 off off1 : Z)
    (list : TheEntitytainerBucketList) :
  add_child_migrate s parent t list off = Ok (s1, t1, off1) ->
  t <> 3 /\
  exists list_new i' list_taken buckets_new lookup',
    bucket_list_at s (t + 1) = Ok list_new /\
    take_bucket list_new = Ok (i', list_taken) /\
    ENTITYTAINER_memcpy (buckets list_new) (bucket_offset_of list_new i')
      (buckets list) off (bucket_size list) = Ok buckets_new /\
    arr_set (entry_lookup s) parent (lookup_encode (t + 1) i') = Ok lookup' /\
    t1 = t + 1 /\ off1 = bucket_offset_of list_new i' /\
    s1 = store_bucket_list
           (store_bucket_list (set_entry_lookup s lookup') t
              (set_used_buckets list (sint32 (used_buckets list - 1))))
           (t + 1)
           (set_used_buckets (set_buckets list_taken buckets_new)
              (sint32 (used_buckets list_new + 1))).
Proof.
  unfold add_child_migrate. intros H.
  bind_inv H as u Hguard. apply assert_Ok, bool_decide_eq_true in Hguard.
  bind_inv H as list_new Hnew.
  bind_inv H as [i' list_taken] Htake.
  destruct (take_bucket_fields _ _ _ Htake) as (Hb & Hsz & _ & Hused).
  assert (bucket_offset_of list_taken i' = bucket_offset_of list_new i') as Hoff.
  { unfold bucket_offset_of. rewrite Hsz. reflexivity. }
  rewrite Hoff, Hused, Hb in H.
  bind_inv H as buckets_new Hcopy.
  bind_inv H as lookup' Hword. inversion H; subst s1 t1 off1. clear H.
  split; [assumption |].
  exists list_new, i', list_taken, buckets_new, lookup'. repeat split; assumption.
Qed.

(** A lookup word below 2^16 names one of four bucket lists. *)
Lemma lookup_bucket_list_index_range (lookup : Z) :
  0 <= lookup < 65536 -> 0 <= lookup_bucket_list_index lookup <= 3.
Proof.
  intros H. unfold lookup_bucket_list_index, ENTITYTAINER_BucketListOffset,
    sizeof_TheEntitytainerEntry. change (2 * 8 - 2) with 14.
  rewrite Z.shiftr_div_pow2 by lia. change (2 ^ 14) with 16384.
  split; [apply Z.div_pos; lia |].
  apply Z.lt_succ_r, Z.div_lt_upper_bound; lia.
Qed.

Lemma lookup_decode_small (t i : Z) :
  0 <= t <= 3 -> 0 <= i < 64 ->
  lookup_bucket_list_index (lookup_encode t i) = t /\
  lookup_bucket_index (lookup_encode t i) = i /\
  (0 < t -> lookup_encode t i <> 0).
Proof.
  intros Ht Hi. rewrite lookup_encode_value by lia. split; [| split].
  - unfold lookup_bucket_list_index, ENTITYTAINER_BucketListOffset,
      sizeof_TheEntitytainerEntry. change (2 * 8 - 2) with 14.
    rewrite Z.shiftr_div_pow2 by lia. change (2 ^ 14) with 16384.
    rewrite Z.add_comm, Z.div_add by lia. rewrite Z.div_small by lia. lia.
  - rewrite lookup_bucket_index_mod.
    replace (t * 16384 + i) with (i + (t * 256) * 64) by lia.
    rewrite Z.mod_add by lia. apply Z.mod_small. lia.
  - lia.
Qed.

(** When the bucket is full, [add_child] moves the parent to the next
    bucket list and the children move with it: if the parent's lookup word
    is a 16-bit value and the bucket drawn from the next list has an index
    below 64, then after the call the lookup word names the next list and
    that bucket, and [get_children] shows the old children, in their order,
    followed by the new child. *)
Theorem add_child_migration_keeps_children (s s' : TheEntitytainer)
    (parent child lookup i' : Z) (cs : list Z)
    (list list_new list_taken : TheEntitytainerBucketList) :
  arr_get (entry_lookup s) parent = Ok lookup ->
  0 <= lookup < 65536 ->
  bucket_list_at s (lookup_bucket_list_index lookup) = Ok list ->
  get_children_list s parent = Ok cs ->
  Z.of_nat (length cs) + 1 = bucket_size list ->
  Z.of_nat (length cs) <= 32766 ->
  bucket_list_at s (lookup_bucket_list_index lookup + 1) = Ok list_new ->
  take_bucket list_new = Ok (i', list_taken) ->
  0 <= i' < 64 ->
  entitytainer_add_child s parent child = Ok s' ->
  arr_get (entry_lookup s') parent
    = Ok (lookup_encode (lookup_bucket_list_index lookup + 1) i') /\
  lookup_bucket_list_index (lookup_encode (lookup_bucket_list_index lookup + 1) i')
    = lookup_bucket_list_index lookup + 1 /\
  lookup_bucket_index (lookup_encode (lookup_bucket_list_index lookup + 1) i') = i' /\
  get_children_list s' parent = Ok (cs ++ [child]) /\
  entitytainer_num_children s' parent = Ok (Z.of_nat (length cs) + 1).
Proof.
  intros HL Hword Hlist Hcs Hfull Hmax Hnew Htake Hi' H.
  apply get_children_list_Ok in Hcs.
  destruct Hcs as (lookup0 & list0 & HL0 & Hne & Hlist0 & Hn & Hread).
  rewrite HL in HL0. inversion HL0; subst lookup0. clear HL0.
  rewrite Hlist in Hlist0. inversion Hlist0; subst list0. clear Hlist0.
  rewrite (add_child_unfold _ _ _ _ _ _ HL Hne Hlist Hn) in H.
  rewrite bool_decide_true in H by assumption.
  bind_inv H as [[s1 t1] off1] Hmig.
  apply add_child_migrate_Ok in Hmig.
  destruct Hmig as (Ht3 & list_new0 & i0 & list_taken0 & buckets_new & lookup'
                    & Hnew0 & Htake0 & Hcopy & Hset & -> & -> & ->).
  rewrite Hnew in Hnew0. inversion Hnew0; subst list_new0. clear Hnew0.
  rewrite Htake in Htake0. inversion Htake0; subst i0 list_taken0. clear Htake0.
  set (t := lookup_bucket_list_index lookup) in *.
  set (off := bucket_offset_of list (lookup_bucket_index lookup)) in *.
  set (off' := bucket_offset_of list_new i') in *.
  pose proof (lookup_bucket_list_index_range lookup Hword) as Ht. fold t in Ht.
  pose proof Hlist as [Ht0 _]%bucket_list_at_Ok.
  destruct (lookup_decode_small (t + 1) i' ltac:(lia) Hi') as (Edec_t & Edec_i & Enz).
  (* the slots the copy left in the new bucket *)
  rewrite <- Hfull in Hcopy. apply memcpy_Ok in Hcopy.
  destruct Hcopy as (slots & Hsrc & Hdst).
  destruct (arr_read_n_cons _ _ _ (Z.of_nat (length cs)) ltac:(lia) Hsrc)
    as (x & xs & -> & Hx & Hxs).
  rewrite Hn in Hx. inversion Hx; subst x. clear Hx.
  rewrite Hread in Hxs. inversion Hxs; subst xs. clear Hxs.
  destruct (arr_read_n_cons _ _ _ (Z.of_nat (length cs)) ltac:(lia) Hdst)
    as (y & ys & Eys & Hy & Hys).
  inversion Eys; subst y ys. clear Eys.
  (* the new bucket list in the container after the migration *)
  destruct (take_bucket_fields _ _ _ Htake) as (_ & Hsz & _ & _).
  set (list1 := set_used_buckets (set_buckets list_taken buckets_new)
                  (sint32 (used_buckets list_new + 1))) in *.
  match type of H with
  | add_child_insert ?x _ _ _ _ = _ => set (s1 := x) in *
  end.
  assert (bucket_list_at s1 (t + 1) = Ok list1) as Hlist1.
  { subst s1. eapply bucket_list_at_store_eq.
    rewrite bucket_list_at_store_ne by lia. exact Hnew. }
  destruct (add_child_insert_children s1 s' parent child (t + 1) off'
              (Z.of_nat (length cs)) list1 cs Hlist1 Hy ltac:(lia) Hys H)
    as (EL & list' & Hlist' & Hsz' & Hn' & Hread').
  assert (arr_get (entry_lookup s') parent = Ok (lookup_encode (t + 1) i')) as HL'.
  { rewrite EL. subst s1. simpl. eapply arr_get_set_eq, Hset. }
  assert (bucket_offset_of list' i' = off') as Eoff.
  { unfold off', bucket_offset_of. rewrite Hsz'. subst list1. simpl. rewrite Hsz.
    reflexivity. }
  split; [exact HL' |]. split; [exact Edec_t |]. split; [exact Edec_i |].
  apply (get_children_list_from s' parent (lookup_encode (t + 1) i') _ _ list').
  - exact HL'.
  - apply Enz. lia.
  - rewrite Edec_t. exact Hlist'.
  - rewrite Edec_i, Eoff. exact Hn'.
  - rewrite Edec_i, Eoff. exact Hread'.
Qed.

Lemma add_child_migration_keeps_children_example :
  exists s list list_new s',
    run_example [AddEntity 5; AddChild 5 100; AddChild 5 101; AddChild 5 102] = Ok s /\
    arr_get (entry_lookup s) 5 = Ok 1 /\
    bucket_list_at s (lookup_bucket_list_index 1) = Ok list /\
    get_children_list s 5 = Ok [100; 101; 102] /\
    bucket_list_at s (lookup_bucket_list_index 1 + 1) = Ok list_new /\
    take_bucket list_new = Ok (0, list_new) /\
    entitytainer_add_child s 5 103 = Ok s' /\
    get_children_list s' 5 = Ok ([100; 101; 102] ++ [103]).
Proof.
  do 4 eexists.
  conj_compute H0. conj_compute H1. conj_compute H2. conj_compute H3.
  conj_compute H4. conj_compute H5. conj_compute H6.
  apply (add_child_migration_keeps_children _ _ 5 103 1 0 [100; 101; 102] _ _ _
           H1 ltac:(lia) H2 H3 ltac:(vm_compute; reflexivity) ltac:(simpl; lia)
           H4 H5 ltac:(lia) H6).
Defined.

(** ** Removing the first child *)

Lemma remove_child_scan_found (fuel : nat) (child i n : Z) :
  remove_child_scan fuel child child i n = (i, child).
Proof.
  destruct fuel as [| fuel]; simpl; [reflexivity |].
  rewrite (bool_decide_false (child <> child)) by (intros Hne; apply Hne; reflexivity).
  reflexivity.
Qed.

(** A block write leaves the entities before it as they were. *)
Lemma arr_get_write_n_before (a a' vs : list Z) (off j : Z) :
  arr_write_n a off vs = Ok a' -> j < off -> arr_get a' j = arr_get a j.
Proof.
  unfold arr_write_n. case_bool_decide as Hb; [| discriminate].
  intros [= <-] Hj. unfold arr_get. case_bool_decide; [| reflexivity].
  rewrite lookup_app_l by (rewrite length_take; lia).
  rewrite lookup_take_lt by lia. reflexivity.
Qed.

(** A store leaves a block after it as it was. *)
Lemma arr_read_n_set_before (a a' : list Z) (i v off n : Z) :
  arr_set a i v = Ok a' -> i < off -> arr_read_n a' off n = arr_read_n a off n.
Proof.
  intros [Hi ->]%arr_set_Ok Hlt. unfold arr_read_n. rewrite length_insert.
  case_bool_decide; [| reflexivity].
  rewrite drop_insert_lt by lia. reflexivity.
Qed.

(** [remove_child] of the first child, when no downward migration follows:
    [get_children] then shows the other children in their order, the child
    has no parent, the lookup word of the parent and the parents of all
    other entities are as before. *)
Theorem remove_child_first (s s' : TheEntitytainer) (parent child lookup : Z) (cs : list Z)
    (list : TheEntitytainerBucketList) :
  arr_get (entry_lookup s) parent = Ok lookup ->
  bucket_list_at s (lookup_bucket_list_index lookup) = Ok list ->
  get_children_list s parent = Ok (child :: cs) ->
  Z.of_nat (length cs) <= 32766 ->
  (forall list_prev,
     0 < lookup_bucket_list_index lookup ->
     bucket_list_at s (lookup_bucket_list_index lookup - 1) = Ok list_prev ->
     Z.of_nat (length cs) + 1 <> bucket_size list_prev) ->
  entitytainer_remove_child s parent child = Ok s' ->
  get_children_list s' parent = Ok cs /\
  entitytainer_num_children s' parent = Ok (Z.of_nat (length cs)) /\
  arr_get (entry_lookup s') parent = Ok lookup /\
  entitytainer_get_parent s' child = Ok 0 /\
  forall c, c <> child -> entitytainer_get_parent s' c = entitytainer_get_parent s c.
Proof.
  intros HL Hlist Hcs Hmax Hstay H.
  apply get_children_list_Ok in Hcs.
  destruct Hcs as (lookup0 & list0 & HL0 & Hne & Hlist0 & Hn & Hread).
  rewrite HL in HL0. inversion HL0; subst lookup0. clear HL0.
  rewrite Hlist in Hlist0. inversion Hlist0; subst list0. clear Hlist0.
  set (t := lookup_bucket_list_index lookup) in *.
  set (off := bucket_offset_of list (lookup_bucket_index lookup)) in *.
  simpl length in Hn, Hread.
  replace (Z.of_nat (S (length cs))) with (Z.of_nat (length cs) + 1) in Hn, Hread by lia.
  destruct (arr_read_n_cons _ _ _ (Z.of_nat (length cs)) ltac:(lia) Hread)
    as (x & xs & Exs & Hfirst & Hrest).
  inversion Exs; subst x xs. clear Exs.
  unfold entitytainer_remove_child in H.
  rewrite HL in H. cbn [mbind result_bind] in H.
  rewrite (bool_decide_true (lookup <> 0)) in H by assumption.
  cbn [mbind result_bind ENTITYTAINER_assert] in H. fold t in H.
  rewrite Hlist in H. cbn [mbind result_bind] in H. fold off in H.
  rewrite Hn in H. cbn [mbind result_bind] in H.
  rewrite Hfirst in H. cbn [mbind result_bind] in H.
  rewrite remove_child_scan_found in H.
  bind_inv H as u Hfound.
  replace (Z.of_nat (length cs) + 1 - 0 - 1) with (Z.of_nat (length cs)) in H by lia.
  replace (off + 2) with (off + 1 + 1) in H by lia.
  bind_inv H as a1 Hmove. unfold ENTITYTAINER_memmove in Hmove.
  rewrite Hrest in Hmove. cbn [mbind result_bind] in Hmove.
  assert (arr_get a1 off = Ok (Z.of_nat (length cs) + 1)) as Hn1.
  { rewrite (arr_get_write_n_before _ _ _ _ _ Hmove) by lia. exact Hn. }
  rewrite Hn1 in H. cbn [mbind result_bind] in H.
  replace (Z.of_nat (length cs) + 1 - 1) with (Z.of_nat (length cs)) in H by lia.
  rewrite sint16_small in H by lia.
  bind_inv H as a2 Hset.
  bind_inv H as s1 Hs1.
  assert (s1 = store_bucket_list s t (set_buckets list a2)) as ->.
  { case_bool_decide as Ht.
    - bind_inv Hs1 as list_prev Hprev.
      rewrite bool_decide_false in Hs1 by (apply (Hstay list_prev); assumption).
      inversion Hs1. reflexivity.
    - inversion Hs1. reflexivity. }
  bind_inv H as reverse' Hrev. inversion H; subst s'. clear H.
  assert (arr_get a2 off = Ok (Z.of_nat (length cs))) as Hn2
    by (eapply arr_get_set_eq, Hset).
  assert (arr_read_n a2 (off + 1) (Z.of_nat (length cs)) = Ok cs) as Hread2.
  { rewrite (arr_read_n_set_before _ _ _ _ _ _ Hset) by lia.
    eapply arr_read_write_n, Hmove. }
  match goal with
  | |- get_children_list ?x _ = _ /\ _ => set (s2 := x) in *
  end.
  assert (bucket_list_at s2 t = Ok (set_buckets list a2)) as Hlist2.
  { change (bucket_list_at (store_bucket_list s t (set_buckets list a2)) t
            = Ok (set_buckets list a2)).
    eapply bucket_list_at_store_eq, Hlist. }
  assert (arr_get (entry_lookup s2) parent = Ok lookup) as HL2 by exact HL.
  destruct (get_children_list_from s2 parent lookup _ cs _ HL2 Hne Hlist2 Hn2 Hread2)
    as [Hc Hnum].
  split; [exact Hc |]. split; [exact Hnum |]. split; [exact HL2 |].
  unfold entitytainer_get_parent. subst s2. simpl. split.
  - eapply arr_get_set_eq, Hrev.
  - intros c Hc'. eapply arr_get_set_ne; eauto.
Qed.

Lemma remove_child_first_example :
  exists s list s',
    run_example [AddEntity 9; AddChild 9 20; AddChild 9 21; AddChild 9 22] = Ok s /\
    arr_get (entry_lookup s) 9 = Ok 1 /\
    bucket_list_at s (lookup_bucket_list_index 1) = Ok list /\
    get_children_list s 9 = Ok (20 :: [21; 22]) /\
    entitytainer_remove_child s 9 20 = Ok s' /\
    get_children_list s' 9 = Ok [21; 22] /\
    entitytainer_get_parent s' 20 = Ok 0.
Proof.
  do 3 eexists.
  conj_compute H0. conj_compute H1. conj_compute H2. conj_compute H3. conj_compute H4.
  destruct (remove_child_first _ _ 9 20 1 [21; 22] _ H1 H2 H3 ltac:(simpl; lia)
              ltac:(intros list_prev Hlt; vm_compute in Hlt; discriminate) H4)
    as (E1 & _ & _ & E2 & _).
  split; assumption.
Defined.

(** ** Releasing the bucket of an entity *)

(** The two halves of an int, put together again. *)
Lemma int_halves (v : Z) :
  INT_MIN <= v <= INT_MAX ->
  sint32 (uint16 (sint16 v) + 65536 * uint16 (sint16 (Z.shiftr v 16))) = v.
Proof.
  unfold INT_MIN, INT_MAX, sint32, uint16, sint16. intros H.
  rewrite Z.shiftr_div_pow2 by lia. change (2 ^ 16) with 65536.
  Z.div_mod_to_equations; lia.
Qed.

(** An int stored over two entity slots is read back from them. *)
Lemma arr_get_set_int (a a' : list Z) (off v : Z) :
  INT_MIN <= v <= INT_MAX ->
  arr_set_int a off v = Ok a' ->
  arr_get_int a' off = Ok v /\ length a' = length a.
Proof.
  intros Hv H. unfold arr_set_int in H.
  pose proof (arr_write_n_length _ _ _ _ H) as Hlen.
  apply arr_read_write_n in H. simpl length in H. change (Z.of_nat 2) with (1 + 1) in H.
  destruct (arr_read_n_cons _ _ _ 1 ltac:(lia) H) as (lo & rest & E & Hlo & Hrest).
  inversion E; subst lo rest. clear E.
  change 1 with (0 + 1) in Hrest at 2.
  destruct (arr_read_n_cons _ _ _ 0 ltac:(lia) Hrest) as (hi & rest & E & Hhi & _).
  inversion E; subst hi rest. clear E.
  split; [| assumption].
  unfold arr_get_int. rewrite Hlo. cbn [mbind result_bind].
  rewrite Hhi. cbn [mbind result_bind]. rewrite int_halves by assumption. reflexivity.
Qed.

(** [remove_entity] of an entity with no parent whose lookup word is a
    16-bit value that is not 0 and names a bucket with an index below 64
    (the index is the low 14 bits of the word; the code decodes only 6 of
    them): its lookup word becomes 0 and the lookup words of the other
    entities and the reverse lookup stay; its bucket becomes the head of
    the free list of its bucket list, the old head is stored as an int in
    the first two slots of the bucket, the used count goes down by one; and
    the read queries on the entity now fail their assertion. *)
Theorem remove_entity_frees_bucket (s s' : TheEntitytainer) (entity lookup : Z)
    (list : TheEntitytainerBucketList) :
  arr_get (entry_lookup s) entity = Ok lookup ->
  lookup <> 0 ->
  0 <= lookup < 65536 ->
  lookup mod 16384 < 64 ->
  arr_get (entry_reverse_lookup s) entity = Ok 0 ->
  bucket_list_at s (lookup_bucket_list_index lookup) = Ok list ->
  INT_MIN <= first_free_bucket list <= INT_MAX ->
  entitytainer_remove_entity s entity = Ok s' ->
  arr_get (entry_lookup s') entity = Ok 0 /\
  (forall e, e <> entity -> arr_get (entry_lookup s') e = arr_get (entry_lookup s) e) /\
  entry_reverse_lookup s' = entry_reverse_lookup s /\
  (exists list',
     bucket_list_at s' (lookup_bucket_list_index lookup) = Ok list' /\
     first_free_bucket list' = lookup mod 16384 /\
     used_buckets list' = sint32 (used_buckets list - 1) /\
     bucket_size list' = bucket_size list /\
     total_buckets list' = total_buckets list /\
     arr_get_int (buckets list') (bucket_offset_of list (lookup mod 16384))
       = Ok (first_free_bucket list)) /\
  entitytainer_num_children s' entity = AssertFailed /\
  entitytainer_get_children s' entity = AssertFailed /\
  (forall child, entitytainer_get_child_index s' entity child = AssertFailed).
Proof.
  intros HL Hne Hword Hsmall HR Hlist Hfree H. unfold entitytainer_remove_entity in H.
  assert (lookup_bucket_index lookup = lookup mod 16384) as Eown.
  { rewrite lookup_bucket_index_mod.
    rewrite (Z.div_mod lookup 16384) at 1 by lia.
    replace (16384 * (lookup / 16384) + lookup mod 16384)
      with (lookup mod 16384 + (lookup / 16384 * 256) * 64) by lia.
    rewrite Z.mod_add by lia. apply Z.mod_small.
    pose proof (Z.mod_pos_bound lookup 16384 ltac:(lia)). lia. }
  rewrite <- Eown.
  rewrite HL, HR in H. cbn [mbind result_bind] in H.
  rewrite (bool_decide_false (0 <> 0)) in H by (intros Hz; apply Hz; reflexivity).
  cbn [mbind result_bind] in H.
  rewrite (bool_decide_false (lookup = 0)) in H by assumption.
  rewrite Hlist in H. cbn [mbind result_bind] in H.
  bind_inv H as buckets' Hint. bind_inv H as lookup' Hset.
  inversion H; subst s'. clear H.
  destruct (arr_get_set_int _ _ _ _ Hfree Hint) as [Hback _].
  assert (arr_get lookup' entity = Ok 0) as HL' by (eapply arr_get_set_eq, Hset).
  split; [exact HL' |]. split.
  { intros e He. simpl. eapply arr_get_set_ne; eauto. }
  split; [reflexivity |]. split.
  { eexists. split; [eapply bucket_list_at_store_eq; exact Hlist |].
    simpl. repeat split; try reflexivity. exact Hback. }
  unfold entitytainer_num_children, entitytainer_get_children,
    entitytainer_get_child_index. simpl. rewrite HL'. auto.
Qed.

Lemma remove_entity_frees_bucket_example :
  exists s list s',
    run_example [AddEntity 1; AddEntity 2] = Ok s /\
    arr_get (entry_lookup s) 2 = Ok 2 /\
    arr_get (entry_reverse_lookup s) 2 = Ok 0 /\
    bucket_list_at s (lookup_bucket_list_index 2) = Ok list /\
    entitytainer_remove_entity s 2 = Ok s' /\
    arr_get (entry_lookup s') 2 = Ok 0 /\
    entitytainer_num_children s' 2 = AssertFailed.
Proof.
  do 3 eexists.
  conj_compute H0. conj_compute H1. conj_compute H2. conj_compute H3. conj_compute H4.
  destruct (remove_entity_frees_bucket _ _ 2 2 _ H1 ltac:(lia) ltac:(lia)
              ltac:(vm_compute; reflexivity) H2 H3
              ltac:(vm_compute; split; discriminate) H4)
    as (E1 & _ & _ & _ & E2 & _).
  split; assumption.
Defined.

(** ** The layout of the container never changes *)

#[global] Instance same_list_shape_refl : Reflexive same_list_shape.
Proof. intros l. unfold same_list_shape. auto. Qed.

#[global] Instance same_list_shape_trans : Transitive same_list_shape.
Proof.
  intros l1 l2 l3 (A1 & A2 & A3) (B1 & B2 & B3). unfold same_list_shape.
  repeat split; congruence.
Qed.

#[global] Instance same_shape_refl : Reflexive same_shape.
Proof. intros s. unfold same_shape. repeat split; reflexivity. Qed.

#[global] Instance same_shape_trans : Transitive same_shape.
Proof.
  intros s1 s2 s3 (A1 & A2 & A3 & A4 & A5) (B1 & B2 & B3 & B4 & B5). unfold same_shape.
  repeat split; try congruence. etransitivity; eassumption.
Qed.

Lemma arr_set_length (a a' : list Z) (i v : Z) :
  arr_set a i v = Ok a' -> length a' = length a.
Proof. intros [_ ->]%arr_set_Ok. apply length_insert. Qed.

Lemma memcpy_length (dst dst' src : list Z) (doff soff n : Z) :
  ENTITYTAINER_memcpy dst doff src soff n = Ok dst' -> length dst' = length dst.
Proof.
  unfold ENTITYTAINER_memcpy. intros H. bind_inv H as vs Hvs.
  eapply arr_write_n_length, H.
Qed.

Lemma same_shape_entry_lookup (s : TheEntitytainer) (l : list Z) :
  length l = length (entry_lookup s) -> same_shape s (set_entry_lookup s l).
Proof. intros Hl. unfold same_shape. simpl. repeat split; [assumption | reflexivity]. Qed.

Lemma same_shape_entry_reverse_lookup (s : TheEntitytainer) (r : list Z) :
  length r = length (entry_reverse_lookup s) -> same_shape s (set_entry_reverse_lookup s r).
Proof. intros Hr. unfold same_shape. simpl. repeat split; [assumption | reflexivity]. Qed.

Lemma same_shape_store (s : TheEntitytainer) (i : Z) (l l' : TheEntitytainerBucketList) :
  bucket_list_at s i = Ok l -> same_list_shape l l' ->
  same_shape s (store_bucket_list s i l').
Proof.
  intros [_ Hl]%bucket_list_at_Ok Hshape. unfold same_shape. simpl.
  repeat split; try reflexivity.
  rewrite <- (list_insert_id _ _ _ Hl) at 1.
  apply Forall2_insert; [reflexivity | assumption].
Qed.

Lemma take_bucket_shape (list list' : TheEntitytainerBucketList) (i : Z) :
  take_bucket list = Ok (i, list') -> same_list_shape list list'.
Proof.
  intros (Hb & Hsz & Htot & _)%take_bucket_fields. unfold same_list_shape.
  rewrite Hb. auto.
Qed.

Lemma add_entity_shape (s s' : TheEntitytainer) (entity : Z) :
  entitytainer_add_entity s entity = Ok s' -> same_shape s s'.
Proof.
  unfold entitytainer_add_entity. intros H.
  bind_inv H as l0 Hl0. bind_inv H as u Hu. bind_inv H as list Hlist.
  bind_inv H as [i list1] Htake. bind_inv H as l1 Hl1. bind_inv H as u' Hu'.
  bind_inv H as lookup' Hset. bind_inv H as buckets' Hzero.
  inversion H; subst s'. clear H.
  transitivity (set_entry_lookup s lookup').
  - apply same_shape_entry_lookup. eapply arr_set_length, Hset.
  - eapply same_shape_store; [exact Hlist |].
    transitivity list1; [eapply take_bucket_shape, Htake |].
    unfold same_list_shape. simpl. repeat split.
    eapply arr_set_length in Hzero. exact Hzero.
Qed.

Lemma add_child_migrate_shape (s s1 : TheEntitytainer) (parent t t1 off off1 : Z)
    (list : TheEntitytainerBucketList) :
  bucket_list_at s t = Ok list ->
  add_child_migrate s parent t list off = Ok (s1, t1, off1) -> same_shape s s1.
Proof.
  intros Hlist H. apply add_child_migrate_Ok in H.
  destruct H as (_ & list_new & i' & list_taken & buckets_new & lookup'
                 & Hnew & Htake & Hcopy & Hset & _ & _ & ->).
  pose proof Hlist as [Ht _]%bucket_list_at_Ok.
  transitivity (set_entry_lookup s lookup').
  { apply same_shape_entry_lookup. eapply arr_set_length, Hset. }
  transitivity (store_bucket_list (set_entry_lookup s lookup') t
                  (set_used_buckets list (sint32 (used_buckets list - 1)))).
  { eapply (same_shape_store _ t list); [exact Hlist |].
    unfold same_list_shape. simpl. auto. }
  eapply (same_shape_store _ (t + 1) list_new).
  - rewrite bucket_list_at_store_ne by lia. exact Hnew.
  - destruct (take_bucket_fields _ _ _ Htake) as (_ & Hsz & Htot & _).
    unfold same_list_shape. simpl. repeat split; try assumption.
    eapply memcpy_length, Hcopy.
Qed.

Lemma add_child_insert_shape (s s' : TheEntitytainer) (parent child t off : Z) :
  add_child_insert s parent child t off = Ok s' -> same_shape s s'.
Proof.
  unfold add_child_insert. intros H.
  bind_inv H as list Hlist. bind_inv H as count Hcount.
  bind_inv H as a1 Hset1. bind_inv H as a2 Hset2. bind_inv H as reverse' Hrev.
  inversion H; subst s'. clear H.
  transitivity (store_bucket_list s t (set_buckets list a2)).
  { eapply (same_shape_store _ t list); [exact Hlist |].
    unfold same_list_shape. simpl. repeat split.
    rewrite (arr_set_length _ _ _ _ Hset2). eapply arr_set_length, Hset1. }
  apply same_shape_entry_reverse_lookup. eapply arr_set_length, Hrev.
Qed.

Lemma add_child_shape (s s' : TheEntitytainer) (parent child : Z) :
  entitytainer_add_child s parent child = Ok s' -> same_shape s s'.
Proof.
  unfold entitytainer_add_child. intros H.
  bind_inv H as lookup HL. bind_inv H as u Hu. bind_inv H as list Hlist.
  bind_inv H as count Hcount. bind_inv H as [[s1 t1] off1] Hmig.
  transitivity s1; [| eapply add_child_insert_shape, H].
  case_bool_decide.
  - eapply add_child_migrate_shape; eassumption.
  - inversion Hmig. reflexivity.
Qed.

Lemma remove_child_migrate_shape (s s1 : TheEntitytainer) (parent t off : Z)
    (list0 list list_prev : TheEntitytainerBucketList) :
  0 < t ->
  bucket_list_at s t = Ok list0 -> same_list_shape list0 list ->
  bucket_list_at s (t - 1) = Ok list_prev ->
  remove_child_migrate s parent t list list_prev off = Ok s1 -> same_shape s s1.
Proof.
  intros Ht Hlist0 Hshape Hprev H. unfold remove_child_migrate in H.
  bind_inv H as [i' list_taken] Htake.
  destruct (take_bucket_fields _ _ _ Htake) as (Hb & Hsz & Htot & _).
  bind_inv H as buckets_new Hcopy. bind_inv H as lookup' Hset.
  inversion H; subst s1. clear H.
  transitivity (set_entry_lookup s lookup').
  { apply same_shape_entry_lookup. eapply arr_set_length, Hset. }
  transitivity (store_bucket_list (set_entry_lookup s lookup') t
                  (set_used_buckets list (sint32 (used_buckets list - 1)))).
  { eapply (same_shape_store _ t list0); [exact Hlist0 |].
    destruct Hshape as (A1 & A2 & A3). unfold same_list_shape. simpl. auto. }
  eapply (same_shape_store _ (t - 1) list_prev).
  - rewrite bucket_list_at_store_ne by lia. exact Hprev.
  - unfold same_list_shape. simpl. repeat split; try assumption.
    rewrite (memcpy_length _ _ _ _ _ _ Hcopy). rewrite Hb. reflexivity.
Qed.

Lemma remove_child_shape (s s' : TheEntitytainer) (parent child : Z) :
  entitytainer_remove_child s parent child = Ok s' -> same_shape s s'.
Proof.
  unfold entitytainer_remove_child. intros H.
  bind_inv H as lookup HL. bind_inv H as u Hu. bind_inv H as list Hlist.
  bind_inv H as n Hn. bind_inv H as first Hfirst.
  destruct (remove_child_scan _ _ _ _ _) as [i child'].
  bind_inv H as u' Hfound. bind_inv H as a1 Hmove. bind_inv H as count Hcount.
  bind_inv H as a2 Hset. bind_inv H as s1 Hs1. bind_inv H as reverse' Hrev.
  inversion H; subst s'. clear H.
  assert (same_list_shape list (set_buckets list a2)) as Hshape.
  { unfold same_list_shape. simpl. repeat split.
    rewrite (arr_set_length _ _ _ _ Hset).
    unfold ENTITYTAINER_memmove in Hmove. bind_inv Hmove as vs Hvs.
    eapply arr_write_n_length, Hmove. }
  transitivity s1.
  - case_bool_decide as Ht.
    + bind_inv Hs1 as list_prev Hprev. case_bool_decide.
      * eapply remove_child_migrate_shape; eassumption.
      * inversion Hs1. eapply same_shape_store; eassumption.
    + inversion Hs1. eapply same_shape_store; eassumption.
  - apply same_shape_entry_reverse_lookup. eapply arr_set_length, Hrev.
Qed.

Lemma remove_entity_shape (s s' : TheEntitytainer) (entity : Z) :
  entitytainer_remove_entity s entity = Ok s' -> same_shape s s'.
Proof.
  unfold entitytainer_remove_entity. intros H.
  bind_inv H as lookup HL. bind_inv H as parent HR.
  bind_inv H as [s1 lookup1] Hs1.
  assert (same_shape s s1) as Hstep.
  { destruct (bool_decide (parent <> 0)).
    - bind_inv Hs1 as s2 Hrem. bind_inv Hs1 as l2 Hl2. inversion Hs1; subst.
      eapply remove_child_shape, Hrem.
    - inversion Hs1. reflexivity. }
  transitivity s1; [exact Hstep |].
  destruct (bool_decide (lookup1 = 0)).
  - inversion H. reflexivity.
  - bind_inv H as list Hlist. bind_inv H as buckets' Hint. bind_inv H as lookup' Hset.
    inversion H; subst s'. clear H.
    transitivity (set_entry_lookup s1 lookup').
    { apply same_shape_entry_lookup. eapply arr_set_length, Hset. }
    eapply (same_shape_store _ _ list); [exact Hlist |].
    unfold same_list_shape. simpl. repeat split.
    unfold arr_set_int in Hint. eapply arr_write_n_length, Hint.
Qed.

(** No sequence of [add_entity], [remove_entity], [add_child] and
    [remove_child] that succeeds changes the layout of the container: the
    lengths of the two lookup arrays, the number of bucket lists and, for
    every bucket list, its bucket size, its total number of buckets and the
    length of its slab are those the container started with. *)
Theorem run_calls_same_shape (cs : list call) :
  forall s s', run_calls s cs = Ok s' -> same_shape s s'.
Proof.
  induction cs as [| c cs IH]; intros s s' H; simpl in H.
  - inversion H. reflexivity.
  - bind_inv H as s1 Hs1. transitivity s1; [| apply IH, H].
    destruct c as [e | e | p c | p c]; simpl in Hs1.
    + eapply add_entity_shape, Hs1.
    + eapply remove_entity_shape, Hs1.
    + eapply add_child_shape, Hs1.
    + eapply remove_child_shape, Hs1.
Qed.

Lemma run_calls_same_shape_example :
  exists s0 s,
    example_container = Ok s0 /\
    run_calls s0 [AddEntity 5; AddChild 5 100; AddChild 5 101; AddChild 5 102;
                  AddChild 5 103; RemoveChild 5 100; RemoveEntity 5] = Ok s /\
    same_shape s0 s.
Proof.
  do 2 eexists. conj_compute H0. conj_compute H1.
  apply (run_calls_same_shape _ _ _ H1).
Defined.

(** ** Adding an entity *)

(** [add_entity] of an entity whose lookup word is 0, when the bucket drawn
    from the first bucket list starts inside the slab of that list: the
    call returns and gives the entity that bucket.  Its lookup word is the
    index of the bucket (as a 16-bit value), slot 0 of the bucket is 0 and
    the used count of the list is one more.  The lookup words of the other
    entities, the reverse lookup, the other bucket lists and the other
    slots of the slab are as before.  If the new lookup word is not 0, a
    second [add_entity] of the same entity fails its assertion.  The
    condition on the slab is needed: the header does not compare
    [used_buckets] with [total_buckets], and a bucket drawn past the slab
    has its slot 0 in the slab of the next bucket list. *)
Theorem add_entity_effects (s : TheEntitytainer) (entity i : Z)
    (list list1 : TheEntitytainerBucketList) :
  arr_get (entry_lookup s) entity = Ok 0 ->
  bucket_list_at s 0 = Ok list ->
  take_bucket list = Ok (i, list1) ->
  0 <= bucket_offset_of list i < Z.of_nat (length (buckets list)) ->
  exists s',
    entitytainer_add_entity s entity = Ok s' /\
    arr_get (entry_lookup s') entity = Ok (uint16 i) /\
    (forall e, e <> entity -> arr_get (entry_lookup s') e = arr_get (entry_lookup s) e) /\
    entry_reverse_lookup s' = entry_reverse_lookup s /\
    (forall t, t <> 0 -> bucket_list_at s' t = bucket_list_at s t) /\
    (exists list',
       bucket_list_at s' 0 = Ok list' /\
       used_buckets list' = sint32 (used_buckets list + 1) /\
       first_free_bucket list' = first_free_bucket list1 /\
       bucket_size list' = bucket_size list /\
       total_buckets list' = total_buckets list /\
       arr_get (buckets list') (bucket_offset_of list i) = Ok 0 /\
       forall j, j <> bucket_offset_of list i ->
         arr_get (buckets list') j = arr_get (buckets list) j) /\
    (uint16 i <> 0 -> entitytainer_add_entity s' entity = AssertFailed).
Proof.
  intros HL0 Hlist Htake Hslab.
  destruct (take_bucket_fields _ _ _ Htake) as (Hb & Hsz & Htot & Hused).
  assert (bucket_offset_of (set_used_buckets list1 (sint32 (used_buckets list1 + 1))) i
          = bucket_offset_of list i) as Eoff.
  { unfold bucket_offset_of. simpl. rewrite Hsz. reflexivity. }
  assert (exists s', entitytainer_add_entity s entity = Ok s') as [s' H].
  { unfold entitytainer_add_entity. rewrite HL0. cbn [mbind result_bind].
    rewrite (bool_decide_true (0 = 0)) by reflexivity.
    cbn [mbind result_bind ENTITYTAINER_assert].
    rewrite Hlist. cbn [mbind result_bind]. rewrite Htake. cbn [mbind result_bind].
    cbn [ENTITYTAINER_assert].
    pose proof HL0 as [He0 He1%lookup_lt_Some]%arr_get_Ok.
    assert (arr_set (entry_lookup s) entity (uint16 i)
            = Ok (<[Z.to_nat entity := uint16 i]> (entry_lookup s))) as ->
      by (unfold arr_set; rewrite bool_decide_true by lia; reflexivity).
    cbn [mbind result_bind]. rewrite Eoff. simpl buckets. rewrite Hb.
    assert (arr_set (buckets list) (bucket_offset_of list i) 0
            = Ok (<[Z.to_nat (bucket_offset_of list i) := 0]> (buckets list))) as ->
      by (unfold arr_set; rewrite bool_decide_true by lia; reflexivity).
    cbn [mbind result_bind]. eexists. reflexivity. }
  exists s'. split; [exact H |].
  unfold entitytainer_add_entity in H.
  bind_inv H as l0 Hl0. bind_inv H as u Hu.
  rewrite Hlist in H. cbn [mbind result_bind] in H.
  rewrite Htake in H. cbn [mbind result_bind] in H.
  bind_inv H as l1 Hl1. bind_inv H as u' Hu'.
  bind_inv H as lookup' Hset. bind_inv H as buckets' Hzero.
  inversion H; subst s'. clear H.
  rewrite Eoff in Hzero. simpl in Hzero. rewrite Hb in Hzero.
  assert (arr_get lookup' entity = Ok (uint16 i)) as HL'
    by (eapply arr_get_set_eq, Hset).
  split; [exact HL' |]. split.
  { intros e He. simpl. eapply arr_get_set_ne; eauto. }
  split; [reflexivity |]. split.
  { intros t Ht. rewrite bucket_list_at_store_ne by lia. reflexivity. }
  split.
  { eexists. split; [eapply bucket_list_at_store_eq; exact Hlist |].
    simpl. split; [rewrite Hused; reflexivity |]. split; [reflexivity |].
    split; [assumption |]. split; [assumption |]. split.
    - eapply arr_get_set_eq, Hzero.
    - intros j Hj. eapply arr_get_set_ne; eauto. }
  intros Hnz. unfold entitytainer_add_entity. simpl. rewrite HL'.
  cbn [mbind result_bind]. rewrite bool_decide_false by assumption. reflexivity.
Qed.

Lemma add_entity_effects_example :
  exists s list,
    run_example [AddEntity 1] = Ok s /\
    arr_get (entry_lookup s) 2 = Ok 0 /\
    bucket_list_at s 0 = Ok list /\
    take_bucket list = Ok (2, list) /\
    exists s',
      entitytainer_add_entity s 2 = Ok s' /\
      arr_get (entry_lookup s') 2 = Ok (uint16 2) /\
      entitytainer_add_entity s' 2 = AssertFailed.
Proof.
  do 2 eexists.
  conj_compute H0. conj_compute H1. conj_compute H2. conj_compute H3.
  destruct (add_entity_effects _ 2 2 _ _ H1 H2 H3
              ltac:(vm_compute; split; [discriminate | reflexivity]))
    as (s' & E0 & E1 & _ & _ & _ & _ & E2).
  exists s'. split; [exact E0 |]. split; [exact E1 |].
  apply E2. vm_compute. discriminate.
Defined.

Lemma add_entity_num_children_example :
  exists s list s',
    run_example [AddEntity 1] = Ok s /\
    bucket_list_at s 0 = Ok list /\
    take_bucket list = Ok (2, list) /\
    entitytainer_add_entity s 2 = Ok s' /\
    entitytainer_num_children s' 2 = Ok 0.
Proof.
  do 3 eexists.
  conj_compute H0. conj_compute H1. conj_compute H2. conj_compute H3.
  apply (add_entity_num_children _ _ 2 2 _ _ H1 H2 ltac:(lia) H3).
Defined.

Lemma add_child_reverse_lookup_example :
  exists s s',
    run_example [AddEntity 3] = Ok s /\
    entitytainer_add_child s 3 10 = Ok s' /\
    entitytainer_get_parent s' 10 = Ok 3 /\
    forall c, c <> 10 -> entitytainer_get_parent s' c = entitytainer_get_parent s c.
Proof.
  do 2 eexists. conj_compute H0. conj_compute H1.
  apply (add_child_reverse_lookup _ _ 3 10 H1).
Defined.

(** ** Construction *)

(** What the loop of [entitytainer_create] returns when it succeeds. *)
Lemma create_loop_Ok (bucket_sizes bucket_list_sizes : list Z) (fuel : nat) :
  forall (i d : Z) (lists : list TheEntitytainerBucketList) (d' : Z),
  0 <= i ->
  create_loop fuel i bucket_sizes bucket_list_sizes d = Ok (lists, d') ->
  length lists = fuel /\
  d' = d + sum_Z ((fun l => Z.of_nat (length (buckets l))) <$> lists) /\
  forall (k : nat) l, lists !! k = Some l ->
    exists b n,
      arr_get bucket_sizes (i + Z.of_nat k) = Ok b /\
      arr_get bucket_list_sizes (i + Z.of_nat k) = Ok n /\
      sizeof_int <= size_t (b * sizeof_TheEntitytainerEntity) /\
      0 <= sint32 (b * n) /\
      l = {| buckets := replicate (Z.to_nat (sint32 (b * n))) 0;
             bucket_size := b;
             total_buckets := n;
             first_free_bucket := ENTITYTAINER_NoFreeBucket;
             used_buckets := if bool_decide (i + Z.of_nat k = 0) then 1 else 0 |}.
Proof.
  induction fuel as [| fuel IH]; intros i d lists d' Hi H; simpl in H.
  - inversion H; subst. split; [reflexivity |]. split; [simpl; lia |].
    intros k l Hk. rewrite lookup_nil in Hk. discriminate.
  - bind_inv H as b Hb. bind_inv H as u Hu. apply assert_Ok, bool_decide_eq_true in Hu.
    bind_inv H as n Hn.
    destruct (bool_decide (0 <= sint32 (b * n))) eqn:Hext; [| discriminate].
    apply bool_decide_eq_true in Hext.
    bind_inv H as [rest d1] Hrest. inversion H; subst lists d'. clear H.
    destruct (IH (i + 1) _ _ _ ltac:(lia) Hrest) as (Hlen & Hsum & Hall).
    split; [simpl; lia |]. split.
    + rewrite Hsum. simpl. rewrite length_replicate, Z2Nat.id by assumption.
      rewrite <- Z.add_assoc. reflexivity.
    + intros [| k] l Hk; simpl in Hk.
      * inversion Hk; subst l. exists b, n. rewrite Z.add_0_r. auto.
      * destruct (Hall k l Hk) as (b' & n' & Hb2 & Hn2 & Hge & Hext' & ->).
        exists b', n'.
        replace (i + Z.of_nat (S k)) with (i + 1 + Z.of_nat k) by lia. auto.
Qed.

(** With arrays that are long enough, bucket sizes from 2 to [INT_MAX],
    counts that are not negative and slabs that together stay below
    [INT_MAX] bytes, the loop succeeds and carves the exact slabs. *)
Lemma create_loop_exact (bucket_sizes bucket_list_sizes : list Z) (fuel : nat) :
  forall (i : nat) (d : Z),
  (i + fuel <= length bucket_sizes)%nat ->
  (i + fuel <= length bucket_list_sizes)%nat ->
  Forall (fun b => 2 <= b <= INT_MAX) bucket_sizes ->
  Forall (Z.le 0) bucket_list_sizes ->
  sum_Z (take fuel (drop i (slab_bytes bucket_sizes bucket_list_sizes))) <= INT_MAX ->
  exists lists d',
    create_loop fuel (Z.of_nat i) bucket_sizes bucket_list_sizes d = Ok (lists, d') /\
    2 * d' = 2 * d + sum_Z (take fuel (drop i (slab_bytes bucket_sizes bucket_list_sizes))).
Proof.
  induction fuel as [| fuel IH]; intros i d Hlb Hln Hsizes Hcounts Hmax.
  - eexists _, _. split; [reflexivity |]. simpl. lia.
  - destruct (lookup_lt_is_Some_2 bucket_sizes i ltac:(lia)) as [b Eb].
    destruct (lookup_lt_is_Some_2 bucket_list_sizes i ltac:(lia)) as [n En].
    assert (2 <= b <= INT_MAX) as Hb
      by (eapply (proj1 (Forall_lookup _ _) Hsizes); eassumption).
    assert (0 <= n) as Hn
      by (eapply (proj1 (Forall_lookup _ _) Hcounts); eassumption).
    pose proof (slab_bytes_lookup _ _ _ _ _ Eb En) as Es.
    rewrite (drop_S _ _ _ Es) in Hmax |- *. simpl in Hmax |- *.
    assert (0 <= sum_Z (take fuel (drop (S i) (slab_bytes bucket_sizes bucket_list_sizes))))
      as Hrest.
    { apply sum_Z_nonneg, Forall_take, Forall_drop, slab_bytes_nonneg; [| assumption].
      apply Forall_forall. intros x Hx.
      apply (proj1 (Forall_forall _ _) Hsizes) in Hx. simpl in Hx. lia. }
    unfold sizeof_TheEntitytainerEntity, INT_MAX in *.
    assert (0 <= n * b) as Hnb by nia.
    replace (arr_get bucket_sizes (Z.of_nat i)) with (Ok (A:=Z) b)
      by (symmetry; apply arr_get_Ok; rewrite Nat2Z.id; split; [lia | assumption]).
    cbn [mbind result_bind].
    rewrite (bool_decide_true (sizeof_int <= size_t (b * 2)))
      by (unfold sizeof_int, size_t; rewrite Z.mod_small; lia).
    cbn [mbind result_bind ENTITYTAINER_assert].
    replace (arr_get bucket_list_sizes (Z.of_nat i)) with (Ok (A:=Z) n)
      by (symmetry; apply arr_get_Ok; rewrite Nat2Z.id; split; [lia | assumption]).
    cbn [mbind result_bind].
    rewrite (sint32_small (b * n)) by (unfold INT_MIN, INT_MAX; lia).
    rewrite (bool_decide_true (0 <= b * n)) by lia.
    replace (Z.of_nat i + 1) with (Z.of_nat (S i)) by lia.
    destruct (IH (S i) (d + b * n) ltac:(lia) ltac:(lia) Hsizes Hcounts ltac:(lia))
      as (rest & d' & -> & Hd').
    cbn [mbind result_bind]. eexists _, _. split; [reflexivity |]. lia.
Qed.

(** What a successful [entitytainer_create] went through. *)
Lemma create_inv (ts : TargetSizes) (memory_size num_entries : Z)
    (bucket_sizes bucket_list_sizes : list Z) (n_lists : Z) (s : TheEntitytainer) :
  entitytainer_create ts memory_size num_entries bucket_sizes bucket_list_sizes
    n_lists = Ok s ->
  exists lists d first,
    (0 <= memory_size /\ 0 <= num_entries /\ 0 <= n_lists) /\
    create_loop (Z.to_nat n_lists) 0 bucket_sizes bucket_list_sizes 0
      = Ok (lists, d) /\
    arr_get (concat (buckets <$> lists)) 0 = Ok first /\
    sizeof_TheEntitytainer ts + sizeof_TheEntitytainerEntry * num_entries
      + sizeof_TheEntitytainerEntity * num_entries
      + sizeof_TheEntitytainerBucketList ts * n_lists
      + sizeof_TheEntitytainerEntity * d = memory_size /\
    s = {| entry_lookup := replicate (Z.to_nat num_entries) 0;
           entry_reverse_lookup := replicate (Z.to_nat num_entries) 0;
           bucket_lists := lists;
           num_bucket_lists := 0;
           entry_lookup_size := 0 |}.
Proof.
  unfold entitytainer_create. intros H.
  destruct (bool_decide (0 <= memory_size /\ 0 <= num_entries /\ 0 <= n_lists)) eqn:Hsign;
    [| discriminate].
  apply bool_decide_eq_true in Hsign.
  bind_inv H as [lists d] Hloop. bind_inv H as first Hfirst. bind_inv H as u Hu.
  bind_inv H as u' Hsize. apply assert_Ok, bool_decide_eq_true in Hsize.
  inversion H; subst s. clear H.
  exists lists, d, first. auto.
Qed.



(** Take sizes of the two structs and a number of entities that are not
    negative, at least one tier, arrays that are long enough, bucket sizes
    from 2 to [INT_MAX], bucket counts that are not negative, a first tier
    that has a bucket, and an exact sum of the sizing formula of at most
    [INT_MAX].  Then [entitytainer_create] succeeds exactly on a buffer of
    the size the sizing formula gives. *)
Theorem create_accepts_exact_size (ts : TargetSizes) (memory_size num_entries : Z)
    (bucket_sizes bucket_list_sizes : list Z) (n_lists c0 : Z) :
  0 <= sizeof_TheEntitytainer ts ->
  0 <= sizeof_TheEntitytainerBucketList ts ->
  0 <= num_entries ->
  1 <= n_lists <= Z.of_nat (length bucket_sizes) ->
  n_lists <= Z.of_nat (length bucket_list_sizes) ->
  Forall (fun b => 2 <= b <= INT_MAX) bucket_sizes ->
  Forall (Z.le 0) bucket_list_sizes ->
  bucket_list_sizes !! 0%nat = Some c0 -> 1 <= c0 ->
  spec_needed_size ts num_entries bucket_sizes bucket_list_sizes n_lists <= INT_MAX ->
  (exists s, entitytainer_create ts memory_size num_entries bucket_sizes
               bucket_list_sizes n_lists = Ok s) <->
  memory_size
    = spec_needed_size ts num_entries bucket_sizes bucket_list_sizes n_lists.
Proof.
  intros Hh Hr He HT HT' Hsizes Hcounts Hc0 Hc0pos Hmax. unfold spec_needed_size in *.
  assert (Forall (Z.le 0) (slab_bytes bucket_sizes bucket_list_sizes)) as Hslabs.
  { apply slab_bytes_nonneg; [| assumption].
    apply Forall_forall. intros x Hx.
    apply (proj1 (Forall_forall _ _) Hsizes) in Hx. simpl in Hx. lia. }
  assert (0 <= sum_Z (take (Z.to_nat n_lists)
                        (slab_bytes bucket_sizes bucket_list_sizes))) as Hsum0
    by (apply sum_Z_nonneg, Forall_take, Hslabs).
  assert (0 <= n_lists * sizeof_TheEntitytainerBucketList ts) as Hrec by nia.
  unfold sizeof_TheEntitytainerEntry, sizeof_TheEntitytainerEntity in *.
  destruct (create_loop_exact bucket_sizes bucket_list_sizes (Z.to_nat n_lists) 0%nat 0
              ltac:(lia) ltac:(lia) Hsizes Hcounts
              ltac:(rewrite drop_0; unfold INT_MAX in *; lia))
    as (lists & d & Hloop & Hd).
  change (Z.of_nat 0) with 0 in Hloop. rewrite drop_0 in Hd.
  split.
  - intros [s (lists' & d' & first & _ & Hloop' & _ & Hsize & _)%create_inv].
    rewrite Hloop in Hloop'. inversion Hloop'; subst lists' d'. clear Hloop'.
    unfold sizeof_TheEntitytainerEntry, sizeof_TheEntitytainerEntity in *. lia.
  - intros Hsize.
    destruct (create_loop_Ok _ _ _ 0 _ _ _ ltac:(lia) Hloop) as (Hlen & _ & Hall).
    destruct lists as [| l0 rest]; [simpl in Hlen; lia |].
    destruct (Hall 0%nat l0 eq_refl) as (b & n & Hb & Hn & _ & Hext & El0).
    apply arr_get_Ok in Hb. destruct Hb as [_ Hb].
    apply arr_get_Ok in Hn. destruct Hn as [_ Hn].
    change (Z.to_nat (0 + Z.of_nat 0)) with 0%nat in Hb, Hn.
    rewrite Hc0 in Hn. inversion Hn; subst n. clear Hn.
    assert (2 <= b <= INT_MAX) as Hbr
      by (eapply (proj1 (Forall_lookup _ _) Hsizes); eassumption).
    (* the first slab is within the range of int and not empty *)
    pose proof (slab_bytes_lookup _ _ _ _ _ Hb Hc0) as Es.
    assert (c0 * b * 2 <= INT_MAX) as Hfirst_bytes.
    { destruct (Z.to_nat n_lists) as [| m] eqn:Em; [lia |].
      destruct (slab_bytes bucket_sizes bucket_list_sizes) as [| x xs] eqn:Exs;
        [discriminate |].
      simpl in Es. inversion Es; subst x. simpl in Hmax, Hsum0.
      assert (0 <= sum_Z (take m xs)) as Hxs.
      { apply sum_Z_nonneg, Forall_take. inversion Hslabs; assumption. }
      unfold sizeof_TheEntitytainerEntity in *. lia. }
    assert (sint32 (b * c0) = b * c0) as Eext
      by (apply sint32_small; unfold INT_MIN, INT_MAX in *; nia).
    assert (arr_get (concat (buckets <$> l0 :: rest)) 0 = Ok 0) as Hfirst.
    { apply arr_get_Ok. split; [lia |]. simpl.
      rewrite lookup_app_l
        by (rewrite El0; simpl; rewrite length_replicate, Eext; nia).
      rewrite El0. simpl. apply lookup_replicate_2. rewrite Eext. nia. }
    unfold entitytainer_create.
    rewrite bool_decide_true by (unfold INT_MAX in *; lia).
    rewrite Hloop. cbn [mbind result_bind].
    rewrite Hfirst. cbn [mbind result_bind].
    rewrite (bool_decide_true (0 = 0)) by reflexivity.
    cbn [mbind result_bind ENTITYTAINER_assert].
    rewrite bool_decide_true
      by (unfold sizeof_TheEntitytainerEntry, sizeof_TheEntitytainerEntity in *; lia).
    cbn [mbind result_bind ENTITYTAINER_assert]. eexists. reflexivity.
Qed.

Lemma create_accepts_exact_size_example :
  (exists s, entitytainer_create lp64 5328 1024 example_sizes example_counts 3 = Ok s) <->
  5328 = spec_needed_size lp64 1024 example_sizes example_counts 3.
Proof.
  apply (create_accepts_exact_size lp64 5328 1024 example_sizes example_counts 3 4).
  - simpl. lia.
  - simpl. lia.
  - lia.
  - simpl. lia.
  - simpl. lia.
  - unfold INT_MAX. repeat constructor; lia.
  - repeat constructor; lia.
  - reflexivity.
  - lia.
  - vm_compute. discriminate.
Defined.

(** A container fresh from [entitytainer_create] is empty: for every
    entity in range, [get_parent] is 0, [remove_entity] returns the
    container as it is, and the calls that need a bucket of the entity
    ([num_children], [get_children], [get_child_index], [add_child],
    [remove_child]) fail their assertion.  As the bucket lists were not
    counted, [needs_realloc] answers false whatever is asked. *)
Theorem fresh_container_is_empty (ts : TargetSizes) (memory_size num_entries : Z)
    (bucket_sizes bucket_list_sizes : list Z) (n_lists : Z) (s : TheEntitytainer) :
  entitytainer_create ts memory_size num_entries bucket_sizes bucket_list_sizes
    n_lists = Ok s ->
  (forall e, 0 <= e < num_entries ->
     entitytainer_get_parent s e = Ok 0 /\
     entitytainer_remove_entity s e = Ok s /\
     entitytainer_num_children s e = AssertFailed /\
     entitytainer_get_children s e = AssertFailed /\
     forall c,
       entitytainer_get_child_index s e c = AssertFailed /\
       entitytainer_add_child s e c = AssertFailed /\
       entitytainer_remove_child s e c = AssertFailed) /\
  (forall percent_free num_free_buckets,
     entitytainer_needs_realloc s percent_free num_free_buckets = Ok false).
Proof.
  intros (lists & d & first & _ & _ & _ & _ & ->)%create_inv. split.
  - intros e He.
    assert (arr_get (replicate (Z.to_nat num_entries) 0) e = Ok 0) as Hzero.
    { apply arr_get_Ok. split; [lia |]. apply lookup_replicate_2. lia. }
    unfold entitytainer_get_parent, entitytainer_remove_entity,
      entitytainer_num_children, entitytainer_get_children,
      entitytainer_get_child_index, entitytainer_add_child, entitytainer_remove_child.
    cbn [entry_lookup entry_reverse_lookup]. rewrite Hzero.
    repeat split; reflexivity.
  - intros percent_free n. reflexivity.
Qed.

Lemma fresh_container_is_empty_example :
  exists s,
    example_container = Ok s /\
    entitytainer_get_parent s 7 = Ok 0 /\
    entitytainer_num_children s 7 = AssertFailed /\
    entitytainer_needs_realloc s three_quarters 0 = Ok false.
Proof.
  eexists. conj_compute H0.
  destruct (fresh_container_is_empty lp64 5328 1024 example_sizes example_counts 3 _ H0)
    as [Hall Hrealloc].
  destruct (Hall 7 ltac:(lia)) as (E1 & _ & E2 & _).
  split; [exact E1 |]. split; [exact E2 |]. apply Hrealloc.
Defined.

(** ** The downward migration *)

(** What a successful downward migration block has done. *)
Lemma remove_child_migrate_Ok (s s1 : TheEntitytainer) (parent t off : Z)
    (list list_prev : TheEntitytainerBucketList) :
  remove_child_migrate s parent t list list_prev off = Ok s1 ->
  exists i' list_taken buckets_new lookup',
    take_bucket list_prev = Ok (i', list_taken) /\
    ENTITYTAINER_memcpy (buckets list_prev) (bucket_offset_of list_prev i')
      (buckets list) off (bucket_size list_prev) = Ok buckets_new /\
    arr_set (entry_lookup s) parent (lookup_encode (t - 1) i') = Ok lookup' /\
    s1 = store_bucket_list
           (store_bucket_list (set_entry_lookup s lookup') t
              (set_used_buckets list (sint32 (used_buckets list - 1))))
           (t - 1)
           (set_used_buckets (set_buckets list_taken buckets_new)
              (sint32 (used_buckets list_prev + 1))).
Proof.
  unfold remove_child_migrate. intros H.
  bind_inv H as [i' list_taken] Htake.
  destruct (take_bucket_fields _ _ _ Htake) as (Hb & Hsz & _ & Hused).
  assert (bucket_offset_of list_taken i' = bucket_offset_of list_prev i') as Hoff.
  { unfold bucket_offset_of. rewrite Hsz. reflexivity. }
  rewrite Hoff, Hused, Hb, Hsz in H.
  bind_inv H as buckets_new Hcopy.
  bind_inv H as lookup' Hword. inversion H; subst s1. clear H.
  exists i', list_taken, buckets_new, lookup'. auto.
Qed.

(** [remove_child] of the first child, when the children left fill a
    bucket of the previous bucket list exactly: the parent moves to a
    bucket drawn from that list.  If the lookup word of the parent is a
    16-bit value, the index of the bucket drawn is below 64 and the new
    lookup word is not the one of bucket 0 of the first list, then after the
    call the lookup word names the previous list and that bucket,
    [get_children] shows the other children in their order, and the child
    has no parent. *)
Theorem remove_child_first_migrates_down (s s' : TheEntitytainer)
    (parent child lookup i' : Z) (cs : list Z)
    (list list_prev list_taken : TheEntitytainerBucketList) :
  arr_get (entry_lookup s) parent = Ok lookup ->
  0 <= lookup < 65536 ->
  bucket_list_at s (lookup_bucket_list_index lookup) = Ok list ->
  get_children_list s parent = Ok (child :: cs) ->
  Z.of_nat (length cs) <= 32766 ->
  0 < lookup_bucket_list_index lookup ->
  bucket_list_at s (lookup_bucket_list_index lookup - 1) = Ok list_prev ->
  Z.of_nat (length cs) + 1 = bucket_size list_prev ->
  take_bucket list_prev = Ok (i', list_taken) ->
  0 <= i' < 64 ->
  1 < lookup_bucket_list_index lookup \/ 0 < i' ->
  entitytainer_remove_child s parent child = Ok s' ->
  arr_get (entry_lookup s') parent
    = Ok (lookup_encode (lookup_bucket_list_index lookup - 1) i') /\
  lookup_bucket_list_index (lookup_encode (lookup_bucket_list_index lookup - 1) i')
    = lookup_bucket_list_index lookup - 1 /\
  lookup_bucket_index (lookup_encode (lookup_bucket_list_index lookup - 1) i') = i' /\
  get_children_list s' parent = Ok cs /\
  entitytainer_get_parent s' child = Ok 0.
Proof.
  intros HL Hword Hlist Hcs Hmax Htpos Hprev Hfit Htake Hi' Hnz H.
  apply get_children_list_Ok in Hcs.
  destruct Hcs as (lookup0 & list0 & HL0 & Hne & Hlist0 & Hn & Hread).
  rewrite HL in HL0. inversion HL0; subst lookup0. clear HL0.
  rewrite Hlist in Hlist0. inversion Hlist0; subst list0. clear Hlist0.
  pose proof (lookup_bucket_list_index_range lookup Hword) as Ht.
  set (t := lookup_bucket_list_index lookup) in *.
  set (off := bucket_offset_of list (lookup_bucket_index lookup)) in *.
  simpl length in Hn, Hread.
  replace (Z.of_nat (S (length cs))) with (Z.of_nat (length cs) + 1) in Hn, Hread by lia.
  destruct (arr_read_n_cons _ _ _ (Z.of_nat (length cs)) ltac:(lia) Hread)
    as (x & xs & Exs & Hfirst & Hrest).
  inversion Exs; subst x xs. clear Exs.
  unfold entitytainer_remove_child in H.
  rewrite HL in H. cbn [mbind result_bind] in H.
  rewrite (bool_decide_true (lookup <> 0)) in H by assumption.
  cbn [mbind result_bind ENTITYTAINER_assert] in H. fold t in H.
  rewrite Hlist in H. cbn [mbind result_bind] in H. fold off in H.
  rewrite Hn in H. cbn [mbind result_bind] in H.
  rewrite Hfirst in H. cbn [mbind result_bind] in H.
  rewrite remove_child_scan_found in H.
  bind_inv H as u Hfound.
  replace (Z.of_nat (length cs) + 1 - 0 - 1) with (Z.of_nat (length cs)) in H by lia.
  replace (off + 2) with (off + 1 + 1) in H by lia.
  bind_inv H as a1 Hmove. unfold ENTITYTAINER_memmove in Hmove.
  rewrite Hrest in Hmove. cbn [mbind result_bind] in Hmove.
  assert (arr_get a1 off = Ok (Z.of_nat (length cs) + 1)) as Hn1.
  { rewrite (arr_get_write_n_before _ _ _ _ _ Hmove) by lia. exact Hn. }
  rewrite Hn1 in H. cbn [mbind result_bind] in H.
  replace (Z.of_nat (length cs) + 1 - 1) with (Z.of_nat (length cs)) in H by lia.
  rewrite sint16_small in H by lia.
  bind_inv H as a2 Hset.
  assert (arr_get a2 off = Ok (Z.of_nat (length cs))) as Hn2
    by (eapply arr_get_set_eq, Hset).
  assert (arr_read_n a2 (off + 1) (Z.of_nat (length cs)) = Ok cs) as Hread2.
  { rewrite (arr_read_n_set_before _ _ _ _ _ _ Hset) by lia.
    eapply arr_read_write_n, Hmove. }
  bind_inv H as s1 Hs1.
  rewrite (bool_decide_true (0 < t)) in Hs1 by assumption.
  rewrite Hprev in Hs1. cbn [mbind result_bind] in Hs1.
  rewrite bool_decide_true in Hs1 by assumption.
  apply remove_child_migrate_Ok in Hs1.
  destruct Hs1 as (i0 & list_taken0 & buckets_new & lookup' & Htake0 & Hcopy & Hword' & ->).
  rewrite Htake in Htake0. inversion Htake0; subst i0 list_taken0. clear Htake0.
  bind_inv H as reverse' Hrev. inversion H; subst s'. clear H.
  set (off' := bucket_offset_of list_prev i') in *.
  (* the slots the copy left in the new bucket *)
  simpl in Hcopy. rewrite <- Hfit in Hcopy. apply memcpy_Ok in Hcopy.
  destruct Hcopy as (slots & Hsrc & Hdst).
  destruct (arr_read_n_cons _ _ _ (Z.of_nat (length cs)) ltac:(lia) Hsrc)
    as (x & xs & -> & Hx & Hxs).
  rewrite Hn2 in Hx. inversion Hx; subst x. clear Hx.
  rewrite Hread2 in Hxs. inversion Hxs; subst xs. clear Hxs.
  destruct (arr_read_n_cons _ _ _ (Z.of_nat (length cs)) ltac:(lia) Hdst)
    as (y & ys & Eys & Hy & Hys).
  inversion Eys; subst y ys. clear Eys.
  destruct (take_bucket_fields _ _ _ Htake) as (_ & Hsz & _ & _).
  pose proof Hprev as [Ht0 _]%bucket_list_at_Ok.
  destruct (lookup_decode_small (t - 1) i' ltac:(lia) Hi') as (Edec_t & Edec_i & _).
  assert (lookup_encode (t - 1) i' <> 0) as Enz
    by (rewrite lookup_encode_value by lia; lia).
  set (list1 := set_used_buckets (set_buckets list_taken buckets_new)
                  (sint32 (used_buckets list_prev + 1))) in *.
  match goal with
  | |- arr_get (entry_lookup ?x) _ = _ /\ _ => set (s2 := x) in *
  end.
  assert (arr_get (entry_lookup s2) parent = Ok (lookup_encode (t - 1) i')) as HL2.
  { subst s2. simpl. eapply arr_get_set_eq, Hword'. }
  assert (bucket_list_at s2 (t - 1) = Ok list1) as Hlist1.
  { subst s2.
    match goal with
    | |- bucket_list_at (set_entry_reverse_lookup ?x _) _ = _ =>
        change (bucket_list_at x (t - 1) = Ok list1)
    end.
    eapply bucket_list_at_store_eq.
    rewrite bucket_list_at_store_ne by lia. exact Hprev. }
  assert (bucket_offset_of list1 i' = off') as Eoff.
  { unfold off', bucket_offset_of. subst list1. simpl. rewrite Hsz. reflexivity. }
  split; [exact HL2 |]. split; [exact Edec_t |]. split; [exact Edec_i |]. split.
  - apply (get_children_list_from s2 parent (lookup_encode (t - 1) i')
             (Z.of_nat (length cs)) cs list1).
    + exact HL2.
    + exact Enz.
    + rewrite Edec_t. exact Hlist1.
    + rewrite Edec_i, Eoff. subst list1. simpl. exact Hy.
    + rewrite Edec_i, Eoff. subst list1. simpl. exact Hys.
  - unfold entitytainer_get_parent. subst s2. simpl. eapply arr_get_set_eq, Hrev.
Qed.

Lemma remove_child_first_migrates_down_example :
  exists s list list_prev s',
    run_example [AddEntity 5; AddChild 5 100; AddChild 5 101; AddChild 5 102;
                 AddChild 5 103] = Ok s /\
    arr_get (entry_lookup s) 5 = Ok 16384 /\
    bucket_list_at s (lookup_bucket_list_index 16384) = Ok list /\
    get_children_list s 5 = Ok (100 :: [101; 102; 103]) /\
    bucket_list_at s (lookup_bucket_list_index 16384 - 1) = Ok list_prev /\
    take_bucket list_prev = Ok (1, list_prev) /\
    entitytainer_remove_child s 5 100 = Ok s' /\
    arr_get (entry_lookup s') 5 = Ok (lookup_encode (lookup_bucket_list_index 16384 - 1) 1) /\
    get_children_list s' 5 = Ok [101; 102; 103].
Proof.
  do 4 eexists.
  conj_compute H0. conj_compute H1. conj_compute H2. conj_compute H3.
  conj_compute H4. conj_compute H5. conj_compute H6.
  destruct (remove_child_first_migrates_down _ _ 5 100 16384 1 [101; 102; 103] _ _ _
              H1 ltac:(lia) H2 H3 ltac:(simpl; lia) ltac:(vm_compute; reflexivity)
              H4 ltac:(vm_compute; reflexivity) H5 ltac:(lia) ltac:(right; lia) H6)
    as (E1 & _ & _ & E2 & _).
  split; assumption.
Defined.

(** A call with a child that is one below the first child succeeds: the
    scan counts the child up to the first slot. *)
Lemma remove_child_reads_first_slot_only_example :
  exists s s',
    run_example [AddEntity 9; AddChild 9 20; AddChild 9 21; AddChild 9 22] = Ok s /\
    entitytainer_remove_child s 9 19 = Ok s' /\
    exists lookup list num_children first (k : nat),
      arr_get (entry_lookup s) 9 = Ok lookup /\
      bucket_list_at s (lookup_bucket_list_index lookup) = Ok list /\
      arr_get (buckets list) (bucket_offset_of list (lookup_bucket_index lookup))
        = Ok num_children /\
      arr_get (buckets list) (bucket_offset_of list (lookup_bucket_index lookup) + 1)
        = Ok first /\
      Z.of_nat k < num_children /\
      first = Nat.iter k (fun c => sint16 (c + 1)) 19.
Proof.
  do 2 eexists. conj_compute H0. conj_compute H1.
  apply (remove_child_reads_first_slot_only _ _ 9 19 H1).
Defined.
